(** * IBM HR Analytics: the attrition pipeline of [IBM-HR.R] and
      [Attrition_Risk.ipynb]

    The two scripts read the same employee table, recode the [Attrition]
    column, fit classifiers and score them.  The development below embeds
    the parts of the scripts that are plain data processing: label
    recoding, thresholding, the comparison of predicted and actual labels,
    the column classification, the in-place label encoding of a working
    copy, and the train/test split.

    Conventions.
    - An R or Python double is a primitive binary64 [float]; [NA] and [NaN]
      are both the float NaN.  Labels and counts are integers ([Z]): the
      doubles [0] and [1] and their sums are integral and exact.
    - An R value that may be [NA] is an [option]; [None] is [NA].
    - A Python exception is a constructor of [exn]; code that may raise
      returns a [result].
    - pandas, scikit-learn and numpy are libraries the scripts call, not
      code of the repository.  Tables follow pandas: [copy()] and [drop()]
      return a new object, [df[c] = ..] changes the object in place.  The
      scikit-learn functions ([LabelEncoder], [confusion_matrix],
      [train_test_split]) are modelled from the specification, each under a
      comment that says so. *)

From Stdlib Require Import ZArith QArith Qround List String Ascii Floats Uint63 Lia Permutation.
From stdpp Require Import gmap strings list fin_maps.

Local Open Scope Z_scope.
Local Open Scope string_scope.

(** ** Numbers shared by the two scripts *)

(** An integer count converted to a double (numpy [int64] to [float64], R
    integer to numeric); exact on [0 <= z < 2^53]. *)
Definition float_of_Z (z : Z) : float := PrimFloat.of_uint63 (Uint63.of_Z z).

(** [a / n] in double arithmetic; [0 / 0] is NaN as in R and numpy. *)
Definition ratio (a n : Z) : float := PrimFloat.div (float_of_Z a) (float_of_Z n).

(** ** The R script [IBM-HR.R] *)

Module RScript.

(** R logical, character and numeric scalars, each with [NA]. *)
Definition rlogical : Type := option bool.
Definition rcharacter : Type := option string.
Definition rnumeric : Type := option Z.

(** [x == "No"] on one character element: [NA == s] is [NA]. *)
Definition chr_eq (x : rcharacter) (s : string) : rlogical :=
  match x with
  | None => None
  | Some v => Some (String.eqb v s)
  end.

(** [x > th] on doubles: a comparison with [NA] or [NaN] is [NA]. *)
Definition dbl_gt (x th : float) : rlogical :=
  if (PrimFloat.is_nan x || PrimFloat.is_nan th)%bool then None
  else Some (PrimFloat.ltb th x).

(** [double1 == double2] on one pair of numeric elements. *)
Definition num_eq (a b : rnumeric) : rlogical :=
  match a, b with
  | Some u, Some v => Some (Z.eqb u v)
  | _, _ => None
  end.

(** [ifelse(test, yes, no)] at one element, with scalar [yes] and [no]. *)
Definition ifelse1 (test : rlogical) (yes no : Z) : rnumeric :=
  match test with
  | None => None
  | Some true => Some yes
  | Some false => Some no
  end.

(** [ifelse] is vectorised over [test]; the result has the shape of [test]. *)
Definition ifelse (test : list rlogical) (yes no : Z) : list rnumeric :=
  List.map (fun t => ifelse1 t yes no) test.

(** [recode_y <- function(x) ifelse(x == "No", 1, 0)], applied by the script
    to the whole [Attrition] column at once. *)
Definition recode_y (x : list rcharacter) : list rnumeric :=
  ifelse (List.map (fun e => chr_eq e "No") x) 1 0.

(** [assign_label <- function(x, th) ifelse(x > th, 1, 0)]; [sapply] calls
    it on one fitted value at a time. *)
Definition assign_label (x th : float) : rnumeric :=
  ifelse1 (dbl_gt x th) 1 0.

(** [recoded_fitted <- sapply(results, assign_label, 0.5)]. *)
Definition recoded_fitted (results : list float) : list rnumeric :=
  List.map (fun x => assign_label x 0.5%float) results.

(** R recycles the shorter operand of an element-wise operator: element [i]
    of an operand of length [n] is element [i mod n]. *)
Definition recycle {A} (l : list A) (n : nat) : list (option A) :=
  List.map (fun i => nth_error l (i mod length l)%nat) (seq 0 n).

(** [double1 == double2] on vectors: empty as soon as one operand is empty,
    otherwise as long as the longer operand. *)
Definition vec_eq (double1 double2 : list rnumeric) : list rlogical :=
  match double1, double2 with
  | [], _ | _, [] => []
  | _, _ =>
      let n := Nat.max (length double1) (length double2) in
      List.map (fun p => match p with
                         | (Some a, Some b) => num_eq a b
                         | _ => None
                         end)
               (combine (recycle double1 n) (recycle double2 n))
  end.

(** [compare_lists]: [new = double1 == double2], then [check] (that is
    [ifelse(x, 1, 0)]) on every element of [new]. *)
Definition compare_lists (double1 double2 : list rnumeric) : list rnumeric :=
  let new := vec_eq double1 double2 in
  let check (x : rlogical) := ifelse1 x 1 0 in
  List.map check new.

(** [sum(v)]: [NA] as soon as one element is [NA]. *)
Fixpoint rsum (v : list rnumeric) : rnumeric :=
  match v with
  | [] => Some 0
  | x :: t =>
      match x, rsum t with
      | Some a, Some s => Some (a + s)
      | _, _ => None
      end
  end.

(** [sum(tempor)/length(tempor)], the last line of the script.  [None] is
    no number: an [NA] sum, or the empty [tempor], on which [sapply] returns
    [list()] and [sum] stops with an error. *)
Definition mean_of (tempor : list rnumeric) : option float :=
  match tempor with
  | [] => None
  | _ =>
      match rsum tempor with
      | Some s => Some (ratio s (Z.of_nat (length tempor)))
      | None => None
      end
  end.

(** [tempor = compare_lists(recoded_fitted, dataset2$Attrition2)], where
    [Attrition2] is [recode_y] of the [Attrition] column and
    [recoded_fitted] the thresholded fitted values. *)
Definition tempor (results : list float) (attrition : list rcharacter) : list rnumeric :=
  compare_lists (recoded_fitted results) (recode_y attrition).

(** The number the script ends on: [sum(tempor)/length(tempor)]. *)
Definition accuracy (results : list float) (attrition : list rcharacter) : option float :=
  mean_of (tempor results attrition).

End RScript.

(** ** Python values shared by the notebook's cells *)

(** The exceptions a cell of the notebook can stop with. *)
Inductive exn : Type :=
| KeyError (label : string)
| NameError (name : string)
| IndexError
| ValueError.

Inductive result (A : Type) : Type :=
| Ok (a : A)
| Raise (e : exn).
Arguments Ok {A} a.
Arguments Raise {A} e.

Definition rbind {A B} (m : result A) (f : A -> result B) : result B :=
  match m with
  | Ok a => f a
  | Raise e => Raise e
  end.

#[global] Instance result_ret : MRet result := fun A a => Ok a.
#[global] Instance result_bind : MBind result := fun A B f m => rbind m f.

(** ** pandas tables *)

Module Pandas.

(** A column read by [read_csv] is homogeneous: all integers ([int64]) or
    all strings ([object]). *)
Inductive Series : Type :=
| IntCol (vals : list Z)
| ObjCol (vals : list string).

Inductive dtype : Type := int64 | object.

Definition dtype_of (s : Series) : dtype :=
  match s with
  | IntCol _ => int64
  | ObjCol _ => object
  end.

Definition is_object (s : Series) : bool :=
  match dtype_of s with
  | object => true
  | int64 => false
  end.

(** A table is its columns in file order, each under its name; [read_csv]
    gives the columns of a file distinct names. *)
Definition DataFrame : Type := list (string * Series).

(** [df.columns] *)
Definition columns (df : DataFrame) : list string := List.map fst df.

(** [df[c]] for one label: [KeyError] when no column has that name. *)
Fixpoint getitem (df : DataFrame) (c : string) : result Series :=
  match df with
  | [] => Raise (KeyError c)
  | (n, s) :: rest => if String.eqb n c then Ok s else getitem rest c
  end.

(** [df[labels]] for a list of labels: the named columns in the order of
    the list, [KeyError] at the first label that names no column. *)
Fixpoint getitems (df : DataFrame) (labels : list string) : result DataFrame :=
  match labels with
  | [] => Ok []
  | c :: rest =>
      s ← getitem df c;
      t ← getitems df rest;
      Ok ((c, s) :: t)
  end.

(** [df[c] = col]: the column named [c] is replaced where it stands; a new
    name is appended.  The notebook only assigns columns as long as the
    table. *)
Fixpoint setitem (df : DataFrame) (c : string) (col : Series) : DataFrame :=
  match df with
  | [] => [(c, col)]
  | (n, s) :: rest =>
      if String.eqb n c then (n, col) :: rest else (n, s) :: setitem rest c col
  end.

Definition mem (c : string) (l : list string) : bool := existsb (String.eqb c) l.

(** [df.drop(columns = labels)]: a new table without the named columns;
    [KeyError] when a label names no column. *)
Definition drop (df : DataFrame) (labels : list string) : result DataFrame :=
  match List.find (fun c => negb (mem c (columns df))) labels with
  | Some c => Raise (KeyError c)
  | None => Ok (List.filter (fun p => negb (mem (fst p) labels)) df)
  end.

(** [df.iloc[:, df.columns != c]]: the columns whose name is not [c]. *)
Definition without (df : DataFrame) (c : string) : DataFrame :=
  List.filter (fun p => negb (String.eqb (fst p) c)) df.

End Pandas.

(** ** scikit-learn *)

Module Sklearn.

Import Pandas.

(** *** LabelEncoder *)

Section Encode.
Context {A : Type} (cmp : A -> A -> comparison).

Fixpoint insert_uniq (x : A) (l : list A) : list A :=
  match l with
  | [] => [x]
  | y :: t =>
      match cmp x y with
      | Lt => x :: l
      | Eq => l
      | Gt => y :: insert_uniq x t
      end
  end.

(** Modelled from the spec: [LabelEncoder] is scikit-learn's and not part
    of the repository; section 4.3 lets the vocabulary be in sorted order,
    which is the order taken here: [classes] is the sorted list of the
    distinct values of the column. *)
Definition classes (vals : list A) : list A := fold_right insert_uniq [] vals.

(** The code of a value is its position in the vocabulary. *)
Fixpoint index_of (x : A) (l : list A) : Z :=
  match l with
  | [] => 0
  | y :: t =>
      match cmp x y with
      | Eq => 0
      | _ => 1 + index_of x t
      end
  end.

Definition encode (vals : list A) : list Z :=
  List.map (fun v => index_of v (classes vals)) vals.
End Encode.

(** [LabelEncoder().fit_transform(col)]: an integer column of the same
    length. *)
Definition fit_transform (col : Series) : Series :=
  match col with
  | IntCol v => IntCol (encode Z.compare v)
  | ObjCol v => IntCol (encode Stdlib.Strings.String.compare v)
  end.

(** *** confusion_matrix *)

Section Confusion.
Context {L : Type} `{EqDecision L}.
Variables negative positive : L.

(** The number of positions where the actual label is [a] and the
    predicted label is [p]. *)
Fixpoint count_pairs (a p : L) (y_true y_pred : list L) : Z :=
  match y_true, y_pred with
  | t :: ts, q :: qs =>
      (if decide (t = a /\ q = p) then 1 else 0) + count_pairs a p ts qs
  | _, _ => 0
  end.

(** Modelled from the spec: [confusion_matrix] is scikit-learn's and not
    part of the repository; by section 4.6 it is the 2x2 table of counts
    with row 0 the negative actual label, row 1 the positive actual
    label, column 0 the negative predicted label and column 1 the
    positive predicted label. *)
Definition confusion_matrix (y_true y_pred : list L) : list (list Z) :=
  [ [ count_pairs negative negative y_true y_pred;
      count_pairs negative positive y_true y_pred ];
    [ count_pairs positive negative y_true y_pred;
      count_pairs positive positive y_true y_pred ] ].
End Confusion.

(** [cm[i, j]] on a two-dimensional array. *)
Definition item (cm : list (list Z)) (i j : nat) : result Z :=
  match nth_error cm i with
  | Some row =>
      match nth_error row j with
      | Some v => Ok v
      | None => Raise IndexError
      end
  | None => Raise IndexError
  end.

(** *** train_test_split *)

(** Modelled from the spec: the seeded generator of section 4.4, which is
    numpy's and not part of the repository.  [seeded s] is the state of
    [RandomState(s)], [permutation r n] the shuffle of [0 .. n-1] it draws. *)
Record RandomState : Type := {
  rng : Type;
  seeded : Z -> rng;
  permutation : rng -> nat -> list nat
}.

(** Every draw is a rearrangement of the row numbers. *)
Definition shuffles (R : RandomState) : Prop :=
  forall (r : rng R) (n : nat), Permutation (permutation R r n) (seq 0 n).

(** Python's [round] on an exact fraction: to the nearest integer, a tie to
    the even one. *)
Definition py_round (q : Q) : Z :=
  let f := Qfloor q in
  match Qcompare (q - inject_Z f) (1 # 2) with
  | Lt => f
  | Gt => f + 1
  | Eq => if Z.even f then f else f + 1
  end.

(** Modelled from the spec: [train_test_split] is scikit-learn's and not
    part of the repository; by section 4.4 the test partition has
    [round(fraction * N)] rows. *)
Definition n_test (test_size : Q) (n : nat) : nat :=
  Z.to_nat (py_round (test_size * inject_Z (Z.of_nat n))).

(** Modelled from the spec: the rows are shuffled by the generator of the
    given seed (the ambient generator of the process when no seed is
    given), the first [n_test] shuffled rows are the test rows and the
    others the training rows.  The result is [(train, test)]. *)
Definition split_indices (R : RandomState) (ambient : rng R)
    (random_state : option Z) (test_size : Q) (n : nat) : list nat * list nat :=
  let r := match random_state with
           | Some seed => seeded R seed
           | None => ambient
           end in
  let p := permutation R r n in
  (skipn (n_test test_size n) p, firstn (n_test test_size n) p).

(** The rows of [X] at the positions [idx], in the order of [idx]. *)
Definition take_rows {A} (X : list A) (idx : list nat) : list A :=
  omap (fun i => nth_error X i) idx.

Record Split (A B : Type) : Type := {
  xtrain : list A;
  xtest : list A;
  ytrain : list B;
  ytest : list B
}.
Arguments xtrain {A B} _.
Arguments xtest {A B} _.
Arguments ytrain {A B} _.
Arguments ytest {A B} _.

(** [train_test_split(X, y, test_size = .., random_state = ..)] on the rows
    of [X] and [y]. *)
Definition train_test_split {A B} (R : RandomState) (ambient : rng R)
    (X : list A) (y : list B) (test_size : Q) (random_state : option Z) : Split A B :=
  let '(train, test) := split_indices R ambient random_state test_size (length X) in
  {| xtrain := take_rows X train;
     xtest := take_rows X test;
     ytrain := take_rows y train;
     ytest := take_rows y test |}.

End Sklearn.

(** ** The notebook [Attrition_Risk.ipynb] *)

Module Notebook.

Import Pandas Sklearn.

(** *** Feature classifier (cells 13 to 23) *)

(** [objcols = [c for c in empattr.columns if empattr[c].dtype == 'O']] *)
Definition objcols (empattr : DataFrame) : list string :=
  List.filter (fun c => match getitem empattr c with
                        | Ok s => is_object s
                        | Raise _ => false
                        end)
              (columns empattr).

(** The factor variables of the dataset description. *)
Definition catcols : list string :=
  ["Education"; "EnvironmentSatisfaction"; "JobInvolvement"; "JobSatisfaction";
   "PerformanceRating"; "RelationshipSatisfaction"; "WorkLifeBalance"].

(** [set(objcols).intersection(set(catcols))], the value cell 16 shows. *)
Definition overlap (objs cats : list string) : gset string :=
  list_to_set objs ∩ list_to_set cats.

(** [set(empattr.columns.tolist()).difference(set(objcols + catcols))] *)
Definition numerical_set (empattr : DataFrame) (objs cats : list string) : gset string :=
  list_to_set (columns empattr) ∖ list_to_set (objs ++ cats)%list.

(** [empattr_numerical_cols = list(..)], in the order the set yields. *)
Definition empattr_numerical_cols (empattr : DataFrame) (objs cats : list string) : list string :=
  elements (numerical_set empattr objs cats).

(** What the classification cells leave behind: the three lists, and the
    set cell 16 shows. *)
Record Classification : Type := {
  cls_objcols : list string;
  cls_catcols : list string;
  cls_shown : gset string;
  cls_numerical : list string
}.

(** Cells 13, 14, 16, 19 and 23 in order; the cells between them only
    display or plot.  Cell 16 only shows the intersection.  Cell 19
    ([empattr_obj = empattr[objcols + catcols].astype(object)]) is the one
    lookup that can stop these cells; the table it builds is only
    described. *)
Definition feature_classifier (empattr : DataFrame) : result Classification :=
  let objs := objcols empattr in
  let cats := catcols in
  let shown := overlap objs cats in
  empattr_obj ← getitems empattr (objs ++ cats)%list;
  Ok {| cls_objcols := objs;
        cls_catcols := cats;
        cls_shown := shown;
        cls_numerical := empattr_numerical_cols empattr objs cats |}.

(** *** Thresholding (cells 52, 58 and 61) *)

Definition th : float := 0.5%float.

(** [lambda x: 0 if x > th else 1]; a comparison with NaN is [False]. *)
Definition recode_probability (x : float) : Z :=
  if PrimFloat.ltb th x then 0 else 1.

(** [predictions_results = predictions_test.apply(lambda x: 0 if x > th else 1)] *)
Definition predictions_results (predictions_test : list float) : list Z :=
  List.map recode_probability predictions_test.

(** [lambda x: 'No' if x == 0 else 'Yes'] *)
Definition label_of_code (x : Z) : string :=
  if Z.eqb x 0 then "No" else "Yes".

(** [predictions_results_recoded = predictions_results.apply(..)] *)
Definition predictions_results_recoded (results : list Z) : list string :=
  List.map label_of_code results.

(** *** Random-forest evaluation (cells 67 and 69) *)

(** [attr_forest_CM = confusion_matrix(ytest, attr_forest.predict(xtest))]
    on the labels of the [Attrition] column. *)
Definition attr_forest_CM (ytest predicted : list string) : list (list Z) :=
  confusion_matrix "No" "Yes" ytest predicted.

(** [tp = cm[1,1]; tn = cm[0,0]; fm_test_acc = (tp + tn)/xtest.shape[0]] *)
Definition fm_test_acc (cm : list (list Z)) (xtest_rows : nat) : result float :=
  tp ← item cm 1 1;
  tn ← item cm 0 0;
  Ok (ratio (tp + tn) (Z.of_nat xtest_rows)).

(** *** The two splits (cells 43 and 76) *)

Definition split_cell43 {A B} (R : RandomState) (ambient : rng R)
    (predictors : list A) (response : list B) : Split A B :=
  train_test_split R ambient predictors response (1 # 5) (Some 0).

Definition split_cell76 {A B} (R : RandomState) (ambient : rng R)
    (newPreds : list A) (newY : list B) : Split A B :=
  train_test_split R ambient newPreds newY (1 # 4) (Some 0).

(** *** The kernel: names bound to table objects *)

(** A Python name holds a reference; several names may hold the same one.
    [heap] maps a reference to the table object it denotes. *)
Record kernel : Type := {
  heap : gmap positive DataFrame;
  vars : gmap string positive
}.

(** A statement runs on the kernel and leaves it changed, also when it
    stops with an exception. *)
Definition cell (A : Type) : Type := kernel -> result A * kernel.

Definition cret {A} (a : A) : cell A := fun k => (Ok a, k).

Definition cbind {A B} (m : cell A) (f : A -> cell B) : cell B :=
  fun k =>
    match m k with
    | (Ok a, k') => f a k'
    | (Raise e, k') => (Raise e, k')
    end.

Definition lift {A} (r : result A) : cell A := fun k => (r, k).

(** The table a name denotes. *)
Definition load (x : string) : cell DataFrame :=
  fun k =>
    match vars k !! x with
    | Some l =>
        match heap k !! l with
        | Some df => (Ok df, k)
        | None => (Raise (NameError x), k)
        end
    | None => (Raise (NameError x), k)
    end.

(** [x = <a new table object>] *)
Definition assign_new (x : string) (df : DataFrame) : cell unit :=
  fun k =>
    let l := fresh (dom (heap k)) in
    (Ok tt, {| heap := <[l := df]> (heap k); vars := <[x := l]> (vars k) |}).

(** [x = y]: the same object under a second name. *)
Definition assign_alias (x y : string) : cell unit :=
  fun k =>
    match vars k !! y with
    | Some l => (Ok tt, {| heap := heap k; vars := <[x := l]> (vars k) |})
    | None => (Raise (NameError y), k)
    end.

(** [x[c] = col]: the object [x] denotes is changed in place. *)
Definition setitem_in_place (x c : string) (col : Series) : cell unit :=
  fun k =>
    match vars k !! x with
    | Some l =>
        match heap k !! l with
        | Some df =>
            (Ok tt, {| heap := <[l := setitem df c col]> (heap k); vars := vars k |})
        | None => (Raise (NameError x), k)
        end
    | None => (Raise (NameError x), k)
    end.

(** [for c in cs: body] *)
Fixpoint for_each {A} (cs : list A) (body : A -> cell unit) : cell unit :=
  match cs with
  | [] => cret tt
  | c :: rest => cbind (body c) (fun _ => for_each rest body)
  end.

(** *** Encoder (cells 72 to 75) *)

(** [newdf = empattr.copy()] *)
Definition cell72 : cell unit :=
  cbind (load "empattr") (fun df => assign_new "newdf" df).

(** [newdf = newdf.drop(columns = ['EmployeeCount','StandardHours'])] *)
Definition cell73 : cell unit :=
  cbind (load "newdf") (fun df =>
  cbind (lift (drop df ["EmployeeCount"; "StandardHours"])) (fun df' =>
  assign_new "newdf" df')).

(** [newdf[c] = LabelEncoder().fit_transform(newdf[c])] *)
Definition recode_column (c : string) : cell unit :=
  cbind (load "newdf") (fun df =>
  cbind (lift (getitem df c)) (fun col =>
  setitem_in_place "newdf" c (fit_transform col))).

(** [recodecols = catcols + objcols; for c in recodecols: ..] *)
Definition cell74 (objs : list string) : cell unit :=
  let recodecols := (catcols ++ objs)%list in
  for_each recodecols recode_column.

(** [newPreds = newdf.iloc[:, newdf.columns != 'Attrition'];
     newY = newdf['Attrition']] *)
Definition cell75 : cell (DataFrame * Series) :=
  cbind (load "newdf") (fun df =>
  cbind (lift (getitem df "Attrition")) (fun newY =>
  cret (without df "Attrition", newY))).

(** Cells 72 to 74: the working copy and its encoding. *)
Definition encoder (objs : list string) : cell unit :=
  cbind cell72 (fun _ => cbind cell73 (fun _ => cell74 objs)).

(** Cells 72 to 75 with [objcols] as cell 13 computed it from [empattr];
    the result is [(newPreds, newY)]. *)
Definition full_feature_path : cell (DataFrame * Series) :=
  cbind (load "empattr") (fun empattr =>
  cbind (encoder (objcols empattr)) (fun _ => cell75)).

(** The loop of cell 74 on a kernel where [newdf] is only a second name of
    the loaded table (neither the copy of cell 72 nor the drop of cell 73
    has run): a run the notebook does not make, kept to show that the
    assignment of the loop writes into whatever object [newdf] denotes. *)
Definition encoder_on_alias (objs : list string) : cell unit :=
  cbind (assign_alias "newdf" "empattr") (fun _ => cell74 objs).

(** Cells 73 and 74 after [newdf = empattr] in place of cell 72's copy. *)
Definition encoder_without_copy (objs : list string) : cell unit :=
  cbind (assign_alias "newdf" "empattr")
        (fun _ => cbind cell73 (fun _ => cell74 objs)).

(** A kernel right after cell 7: [empattr] names the loaded table. *)
Definition loaded (empattr : DataFrame) : kernel :=
  {| heap := {[ 1%positive := empattr ]}; vars := {[ "empattr" := 1%positive ]} |}.

(** *** Plots (cells 18 and 22) *)

(** A value of a column, as the keys of a [Counter] hold it. *)
Inductive value : Type :=
| VInt (z : Z)
| VStr (s : string).

#[global] Instance value_eq_dec : EqDecision value.
Proof. solve_decision. Defined.

Definition values_of (s : Series) : list value :=
  match s with
  | IntCol v => List.map VInt v
  | ObjCol v => List.map VStr v
  end.

(** [Counter(iterable)]: one entry per distinct element, in the order the
    elements are first met, with the number of times each is met. *)
Fixpoint counter_add {A} `{EqDecision A} (x : A) (c : list (A * nat)) : list (A * nat) :=
  match c with
  | [] => [(x, 1%nat)]
  | (y, n) :: rest =>
      if decide (x = y) then (y, S n) :: rest else (y, n) :: counter_add x rest
  end.

Definition Counter {A} `{EqDecision A} (l : list A) : list (A * nat) :=
  fold_left (fun c x => counter_add x c) l [].

(** What a plotting call is asked to draw.  The drawing itself is
    matplotlib's; of what can go wrong while drawing, the bar chart of a
    column without rows (see [plot_barchart]) and the box plot of a text
    column (see [plot_hist]) are modelled. *)
Inductive plot : Type :=
| Hist (col : Series)
| Boxplot (col by_col : Series)
| Bar (title : string) (labels : list value) (heights : list nat).

(** [plot_hist]: [tibble[[colname, response_var]].boxplot(by = response_var)];
    without a [response_var] the lookup of [None] is a [KeyError].  The box
    plot is drawn of the numbers of [colname]: a text column leaves nothing
    to draw and [boxplot] stops with a [ValueError]. *)
Definition plot_hist (tibble : DataFrame) (colname : string)
    (response_var : option string) : result plot :=
  match response_var with
  | None => Raise (KeyError "None")
  | Some r =>
      col ← getitem tibble colname;
      by_col ← getitem tibble r;
      match col with
      | IntCol _ => Ok (Boxplot col by_col)
      | ObjCol _ => Raise ValueError
      end
  end.

(** [plot_barchart]: the bars are the entries of
    [dict(Counter(series_col))], the title is the name of the column.  On a
    column without rows the frame of labels and values is empty and
    [df.plot.bar] stops with an [IndexError]. *)
Definition plot_barchart (name : string) (series_col : Series) : result plot :=
  let counterDict := Counter (values_of series_col) in
  match counterDict with
  | [] => Raise IndexError
  | _ => Ok (Bar name (List.map fst counterDict) (List.map snd counterDict))
  end.

(** [plot_figure(tibble, colname, xlab, ylab, fig_type, response_var)]:
    nothing happens when [fig_type] is [None], empty or not one of the three
    names; [xlab] and [ylab] are not used. *)
Definition plot_figure (tibble : DataFrame) (colname : string)
    (xlab ylab fig_type response_var : option string) : result (list plot) :=
  match fig_type with
  | None => Ok []
  | Some ft =>
      if String.eqb ft "" then Ok []
      else if String.eqb ft "hist" then
        col ← getitem tibble colname; Ok [Hist col]
      else if String.eqb ft "boxplot" then
        p ← plot_hist tibble colname response_var; Ok [p]
      else if String.eqb ft "barh" then
        col ← getitem tibble colname;
        p ← plot_barchart colname col;
        Ok [p]
      else Ok []
  end.

Definition printcols : list string := ["Attrition"; "Gender"; "PerformanceRating"].

(** [for c in cs: plot_figure(empattr, c, xlab = c, ylab = None,
    fig_type = 'barh')]: the plots shown, and how the loop ended. *)
Fixpoint barcharts (empattr : DataFrame) (cs : list string) : list plot * result unit :=
  match cs with
  | [] => ([], Ok tt)
  | c :: rest =>
      match plot_figure empattr c (Some c) None (Some "barh") None with
      | Ok shown =>
          let '(later, r) := barcharts empattr rest in ((shown ++ later)%list, r)
      | Raise e => ([], Raise e)
      end
  end.

(** Cell 22. *)
Definition cell22 (empattr : DataFrame) : list plot * result unit :=
  barcharts empattr printcols.

(** *** Correlation table (cell 32) *)

(** [ignore_cols = ['EmployeeCount','StandardHours'] + objcols + catcols] *)
Definition ignore_cols (objs : list string) : list string :=
  (["EmployeeCount"; "StandardHours"] ++ objs ++ catcols)%list.

(** [empattr.drop(columns = ignore_cols)], the table [.corr()] is taken of. *)
Definition corr_input (empattr : DataFrame) : result DataFrame :=
  drop empattr (ignore_cols (objcols empattr)).

(** *** Rows under their index labels (cells 41 to 44) *)

(** The rows of a table read by [read_csv], each under its row number. *)
Definition with_index {A} (rows : list A) : list (nat * A) :=
  combine (seq 0 (length rows)) rows.

(** [left.merge(right, left_index = True, right_index = True)]: an inner
    join on the index labels, in the order of the left table. *)
Definition merge_on_index {A B} (left : list (nat * A)) (right : list (nat * B))
    : list (nat * (A * B)) :=
  flat_map (fun l =>
              List.map (fun r => (fst l, (snd l, snd r)))
                       (List.filter (fun r => Nat.eqb (fst r) (fst l)) right))
           left.

(** Cells 43 and 44: the split of the labelled rows, then
    [xtrain2 = xtrain.merge(ytrain, left_index = True, right_index = True)]. *)
Definition xtrain2 {A B} (R : RandomState) (ambient : rng R)
    (predictors : list A) (response : list B) : list (nat * (A * B)) :=
  let sp := split_cell43 R ambient (with_index predictors) (with_index response) in
  merge_on_index (xtrain sp) (ytrain sp).

(** *** Accuracy of the full-feature model (cells 81 and 82) *)

(** What the comparison and the division can stop with. *)
Inductive arith_exn : Type := ZeroDivisionError | ValueError.

(** [preds = newmodel.predict(xtest) == ytest]: element by element; operands
    of different lengths are a [ValueError]. *)
Fixpoint preds (predicted ytest : list Z) : arith_exn + list bool :=
  match predicted, ytest with
  | [], [] => inr []
  | p :: ps, y :: ys =>
      match preds ps ys with
      | inr t => inr (Z.eqb p y :: t)
      | inl e => inl e
      end
  | _, _ => inl ValueError
  end.

(** [recodedpreds = preds.apply(lambda x: 1 if x else 0)] *)
Definition recodedpreds (ps : list bool) : list Z :=
  List.map (fun x : bool => if x then 1 else 0) ps.

(** [sum(recodedpreds)/len(recodedpreds)]; the division of an empty sum by
    a zero length is a [ZeroDivisionError]. *)
Definition score (rs : list Z) : arith_exn + float :=
  match rs with
  | [] => inl ZeroDivisionError
  | _ => inr (ratio (fold_right Z.add 0 rs) (Z.of_nat (length rs)))
  end.

(** Cells 81 and 82 together. *)
Definition test_accuracy (predicted ytest : list Z) : arith_exn + float :=
  match preds predicted ytest with
  | inr ps => score (recodedpreds ps)
  | inl e => inl e
  end.

End Notebook.

(** ** Notions the statements use *)

Module Props.

(** A vector of binary labels: every element is one of the two labels. *)
Definition binary {L} (negative positive : L) (v : list L) : Prop :=
  Forall (fun x => x = negative \/ x = positive) v.

(** [count(predicted == actual)]: the number of positions where the two
    vectors agree. *)
Fixpoint agreements {L} `{EqDecision L} (predicted actual : list L) : Z :=
  match predicted, actual with
  | p :: ps, a :: az => (if decide (p = a) then 1 else 0) + agreements ps az
  | _, _ => 0
  end.

(** The labels of a vector as R numerics under a numbering of the labels. *)
Definition numbered {L} (code : L -> Z) (v : list L) : list RScript.rnumeric :=
  List.map (fun x => Some (code x)) v.

(** [train] and [test] partition the rows [0 .. N-1]: no row is in both,
    every row is in one of them, neither repeats a row, and the sizes sum
    to [N]. *)
Definition partition_of_rows (train test : list nat) (N : nat) : Prop :=
  (forall i, In i train -> In i test -> False)
  /\ (forall i, In i train \/ In i test <-> (i < N)%nat)
  /\ List.NoDup train /\ List.NoDup test
  /\ (length train + length test = N)%nat.

(** [rows] are the rows of [X] at the positions [idx], in the order of
    [idx]. *)
Definition rows_at {A} (X : list A) (idx : list nat) (rows : list A) : Prop :=
  length rows = length idx
  /\ forall k, nth_error rows k
               = match nth_error idx k with
                 | Some i => nth_error X i
                 | None => None
                 end.

(** A list of column names as a set. *)
Definition col_set (l : list string) : gset string := list_to_set l.

(** The union of the three classes of columns. *)
Definition class_union (c : Notebook.Classification) : gset string :=
  col_set (Notebook.cls_objcols c) ∪ col_set (Notebook.cls_catcols c)
  ∪ col_set (Notebook.cls_numerical c).

(** The table the loop of cell 74 leaves when it runs over the columns
    [cs] of the table [df], as a function of the table alone. *)
Fixpoint recode_all (cs : list string) (df : Pandas.DataFrame) : result Pandas.DataFrame :=
  match cs with
  | [] => Ok df
  | c :: rest =>
      col ← Pandas.getitem df c;
      recode_all rest (Pandas.setitem df c (Sklearn.fit_transform col))
  end.

(** The numbering "No" to 0 and "Yes" to 1. *)
Definition no_is_zero (v : string) : Z := if String.eqb v "No" then 0 else 1.

(** [keeps l T k]: in the kernel [k] the name [empattr] still denotes the
    object [l], and that object is the table [T]. *)
Definition keeps (l : positive) (T : Pandas.DataFrame) (k : Notebook.kernel) : Prop :=
  Notebook.vars k !! "empattr" = Some l /\ Notebook.heap k !! l = Some T.

(** [newdf] denotes an object other than [l]. *)
Definition works_beside (l : positive) (k : Notebook.kernel) : Prop :=
  exists l', Notebook.vars k !! "newdf" = Some l' /\ l' <> l.

(** Every column of the table is an integer column. *)
Definition all_int64 (df : Pandas.DataFrame) : Prop :=
  Forall (fun p => Pandas.is_object (snd p) = false) df.

(** The fitted value is above the threshold exactly when the employee
    stayed. *)
Definition scored_right (p : float) (a : string) : bool :=
  Bool.eqb (PrimFloat.ltb 0.5%float p) (String.eqb a "No").

(** The number of times [l] holds [x]. *)
Fixpoint occurrences {A} `{EqDecision A} (x : A) (l : list A) : nat :=
  match l with
  | [] => 0%nat
  | y :: rest => ((if decide (y = x) then 1 else 0) + occurrences x rest)%nat
  end.

(** [counted c l]: the keys of [c] are distinct, and [c] holds [x] with the
    count [n] exactly when [l] holds [x], [n] times. *)
Definition counted {A} `{EqDecision A} (c : list (A * nat)) (l : list A) : Prop :=
  List.NoDup (List.map fst c)
  /\ forall x n, In (x, n) c <-> (n = occurrences x l /\ (0 < n)%nat).

(** The bar charts of the columns [cs] that the table has, with rows. *)
Definition charts (empattr : Pandas.DataFrame) (cs : list string) : list Notebook.plot :=
  omap (fun c => match Pandas.getitem empattr c with
                 | Ok col =>
                     match Notebook.plot_barchart c col with
                     | Ok p => Some p
                     | Raise _ => None
                     end
                 | Raise _ => None
                 end) cs.

(** The table has the column [c], and the column has rows. *)
Definition drawable (empattr : Pandas.DataFrame) (c : string) : Prop :=
  exists col, Pandas.getitem empattr c = Ok col /\ Notebook.values_of col <> [].

(** The distinct elements of [l], in the order they are first met. *)
Fixpoint first_seen {A} `{EqDecision A} (l : list A) : list A :=
  match l with
  | [] => []
  | x :: rest =>
      x :: List.filter (fun y => negb (bool_decide (y = x))) (first_seen rest)
  end.

End Props.

(** ** Sample data *)

Module Sample.

Import Pandas Sklearn Notebook.

(** A table with the columns the scripts name and five employees. *)
Definition empattr : DataFrame :=
  [ ("Age", IntCol [41; 49; 37; 33; 27]);
    ("Attrition", ObjCol ["Yes"; "No"; "Yes"; "No"; "No"]);
    ("DistanceFromHome", IntCol [1; 8; 2; 3; 2]);
    ("Education", IntCol [2; 1; 2; 4; 1]);
    ("EmployeeCount", IntCol [1; 1; 1; 1; 1]);
    ("EnvironmentSatisfaction", IntCol [2; 3; 4; 4; 1]);
    ("Gender", ObjCol ["Female"; "Male"; "Male"; "Female"; "Male"]);
    ("JobInvolvement", IntCol [3; 2; 2; 3; 3]);
    ("JobSatisfaction", IntCol [4; 2; 3; 3; 2]);
    ("PerformanceRating", IntCol [3; 4; 3; 3; 3]);
    ("RelationshipSatisfaction", IntCol [1; 4; 2; 3; 4]);
    ("StandardHours", IntCol [80; 80; 80; 80; 80]);
    ("WorkLifeBalance", IntCol [1; 3; 3; 3; 3]);
    ("YearsSinceLastPromotion", IntCol [0; 1; 0; 3; 2]) ].

(** The same table with [Education] read as text. *)
Definition empattr_text_education : DataFrame :=
  setitem empattr "Education"
    (ObjCol ["College"; "Below College"; "College"; "Master"; "Below College"]).

(** A generator that reverses the rows on an odd state and keeps them on an
    even one. *)
Definition flip : RandomState :=
  {| rng := Z;
     seeded := fun seed => seed + 1;
     permutation := fun r n => if Z.even r then seq 0 n else rev (seq 0 n) |}.

End Sample.

Example recode_y_sample :
  RScript.recode_y [Some "Yes"; Some "No"; None; Some "No"]
  = [Some 0; Some 1; None; Some 1].
Proof. reflexivity. Qed.

Example assign_label_sample :
  RScript.recoded_fitted [0.25%float; 0.5%float; 0.75%float; PrimFloat.nan]
  = [Some 0; Some 0; Some 1; None].
Proof. reflexivity. Qed.

Example compare_lists_sample :
  RScript.compare_lists [Some 1; Some 0; Some 1; Some 1] [Some 1; Some 1; Some 1; Some 0]
  = [Some 1; Some 0; Some 1; Some 0].
Proof. reflexivity. Qed.

Example compare_lists_recycles :
  RScript.compare_lists [Some 1; Some 0; Some 1; Some 1] [Some 1; Some 0]
  = [Some 1; Some 1; Some 1; Some 0].
Proof. reflexivity. Qed.

Example py_round_samples :
  Sklearn.py_round (294 # 1) = 294 /\ Sklearn.py_round (735 # 2) = 368
  /\ Sklearn.py_round (5 # 2) = 2 /\ Sklearn.py_round (6 # 5) = 1.
Proof. repeat split. Qed.

Example n_test_of_the_two_splits :
  Sklearn.n_test (1 # 5) 1470 = 294%nat /\ Sklearn.n_test (1 # 4) 1470 = 368%nat.
Proof. split; reflexivity. Qed.

Example fit_transform_sample :
  Sklearn.fit_transform (Pandas.ObjCol ["Sales"; "HR"; "Sales"; "R&D"])
  = Pandas.IntCol [2; 0; 2; 1].
Proof. reflexivity. Qed.

Example objcols_sample :
  Notebook.objcols Sample.empattr = ["Attrition"; "Gender"].
Proof. reflexivity. Qed.

Example mean_of_sample :
  RScript.mean_of [Some 1; Some 0; Some 1; Some 1] = Some 0.75%float.
Proof. reflexivity. Qed.

(** ** Thresholding and label recoding *)

Lemma ifelse_length test yes no :
  length (RScript.ifelse test yes no) = length test.
Proof. unfold RScript.ifelse. apply List.length_map. Qed.

Lemma recode_y_pointwise x :
  RScript.recode_y x
  = List.map (fun e => RScript.ifelse1 (RScript.chr_eq e "No") 1 0) x.
Proof. unfold RScript.recode_y, RScript.ifelse. apply List.map_map. Qed.

Lemma assign_label_number (x t : float) :
  PrimFloat.is_nan x = false -> PrimFloat.is_nan t = false ->
  RScript.assign_label x t = Some (if PrimFloat.ltb t x then 1 else 0).
Proof.
  intros Hx Ht. unfold RScript.assign_label, RScript.dbl_gt.
  rewrite Hx, Ht. simpl. now destruct (PrimFloat.ltb t x).
Qed.

(** C1: on every fitted probability [p] (a double that is a number), the R
    script's [assign_label(p, 0.5)] is 1 when [p > 0.5] and 0 otherwise, the
    notebook's recoding lambda is 0 when [p > 0.5] and 1 otherwise; so above
    the threshold the R script assigns 1 and the notebook assigns 0. *)
Theorem C1_threshold_labels_opposite (p : float) :
  PrimFloat.is_nan p = false ->
  RScript.assign_label p 0.5%float = Some (if PrimFloat.ltb 0.5%float p then 1 else 0)
  /\ Notebook.recode_probability p = (if PrimFloat.ltb 0.5%float p then 0 else 1)
  /\ (PrimFloat.ltb 0.5%float p = true ->
      RScript.assign_label p 0.5%float = Some 1
      /\ Notebook.recode_probability p = 0).
Proof.
  intros Hp.
  assert (Hr := assign_label_number p 0.5%float Hp eq_refl).
  assert (Hn : Notebook.recode_probability p
               = (if PrimFloat.ltb 0.5%float p then 0 else 1)) by reflexivity.
  split; [exact Hr | split; [exact Hn |]].
  intros Hgt. rewrite Hr, Hn, Hgt. split; reflexivity.
Qed.

Lemma C1_threshold_labels_opposite_witness :
  PrimFloat.is_nan 0.75%float = false
  /\ RScript.assign_label 0.75%float 0.5%float = Some 1
  /\ Notebook.recode_probability 0.75%float = 0.
Proof.
  split; [reflexivity |].
  apply (C1_threshold_labels_opposite 0.75%float); reflexivity.
Defined.

(** C7: [recode_y] maps "No" to 1 and "Yes" to 0, is one-to-one on the
    domain {"Yes", "No"} and onto {0, 1}, and the recoded column is as long
    as its input, element by element. *)
Theorem C7_recode_y_bijection :
  RScript.recode_y [Some "No"] = [Some 1]
  /\ RScript.recode_y [Some "Yes"] = [Some 0]
  /\ (forall a b : string,
        In a ["Yes"; "No"] -> In b ["Yes"; "No"] ->
        RScript.recode_y [Some a] = RScript.recode_y [Some b] -> a = b)
  /\ (forall c : Z,
        In c [0; 1] ->
        exists a : string, In a ["Yes"; "No"] /\ RScript.recode_y [Some a] = [Some c])
  /\ (forall x : list RScript.rcharacter,
        length (RScript.recode_y x) = length x)
  /\ (forall (x : list RScript.rcharacter) (i : nat),
        nth_error (RScript.recode_y x) i
        = option_map (fun e => RScript.ifelse1 (RScript.chr_eq e "No") 1 0)
                     (nth_error x i)).
Proof.
  split; [reflexivity | split; [reflexivity |]].
  split.
  { intros a b Ha Hb. simpl in Ha, Hb.
    destruct Ha as [<- | [<- | []]], Hb as [<- | [<- | []]];
      simpl; intros H; try reflexivity; discriminate H. }
  split.
  { intros c Hc. simpl in Hc. destruct Hc as [<- | [<- | []]].
    - exists "Yes". split; [simpl; auto | reflexivity].
    - exists "No". split; [simpl; auto | reflexivity]. }
  split.
  { intros x. unfold RScript.recode_y.
    rewrite ifelse_length. apply List.length_map. }
  intros x i. rewrite recode_y_pointwise. apply List.nth_error_map.
Qed.

(** ** Accuracy and the confusion matrix *)

Section ConfusionFacts.
Context {L : Type} `{EqDecision L}.
Variables negative positive : L.
Hypothesis distinct : negative <> positive.

Lemma count_pairs_nonneg (a p : L) (y_true y_pred : list L) :
  0 <= Sklearn.count_pairs a p y_true y_pred.
Proof.
  revert y_pred. induction y_true as [| t ts IH]; intros [| q qs]; simpl; try lia.
  specialize (IH qs). destruct (decide (t = a /\ q = p)); lia.
Qed.

Lemma count_pairs_total (y_true y_pred : list L) :
  length y_true = length y_pred ->
  Props.binary negative positive y_true ->
  Props.binary negative positive y_pred ->
  Sklearn.count_pairs negative negative y_true y_pred
  + Sklearn.count_pairs negative positive y_true y_pred
  + Sklearn.count_pairs positive negative y_true y_pred
  + Sklearn.count_pairs positive positive y_true y_pred
  = Z.of_nat (length y_true).
Proof.
  revert y_pred. induction y_true as [| t ts IH]; intros [| q qs] Hlen Ht Hp;
    simpl in Hlen; try discriminate; [reflexivity |].
  inversion Ht as [| ? ? Ht1 Ht2]; inversion Hp as [| ? ? Hp1 Hp2]; subst.
  specialize (IH qs ltac:(lia) Ht2 Hp2).
  cbn [Sklearn.count_pairs length].
  rewrite Nat2Z.inj_succ.
  destruct Ht1 as [-> | ->], Hp1 as [-> | ->];
    repeat (destruct (decide _) as [[? ?] | ?]); try congruence;
    try lia; exfalso; intuition congruence.
Qed.

Lemma count_pairs_diagonal (y_true y_pred : list L) :
  Props.binary negative positive y_true ->
  Props.binary negative positive y_pred ->
  Sklearn.count_pairs positive positive y_true y_pred
  + Sklearn.count_pairs negative negative y_true y_pred
  = Props.agreements y_pred y_true.
Proof.
  revert y_pred. induction y_true as [| t ts IH]; intros [| q qs] Ht Hp;
    simpl; try reflexivity.
  inversion Ht as [| ? ? Ht1 Ht2]; inversion Hp as [| ? ? Hp1 Hp2]; subst.
  specialize (IH qs Ht2 Hp2).
  destruct Ht1 as [-> | ->], Hp1 as [-> | ->];
    repeat (destruct (decide _) as [? | ?]); try congruence;
    try lia; exfalso; intuition congruence.
Qed.
End ConfusionFacts.

Lemma nth_error_seq_all {A} (l : list A) :
  List.map (nth_error l) (seq 0 (length l)) = List.map Some l.
Proof.
  induction l as [| x l IH]; [reflexivity |].
  cbn [length]. rewrite <- cons_seq, <- seq_shift. cbn [List.map nth_error].
  rewrite List.map_map, <- IH. f_equal.
Qed.

Lemma recycle_full {A} (l : list A) :
  RScript.recycle l (length l) = List.map Some l.
Proof.
  unfold RScript.recycle. rewrite <- nth_error_seq_all.
  apply List.map_ext_in. intros i Hi. apply in_seq in Hi.
  now rewrite Nat.mod_small by lia.
Qed.

Lemma combine_map_Some {A B} (a : list A) (b : list B) :
  combine (List.map Some a) (List.map Some b)
  = List.map (fun p => (Some (fst p), Some (snd p))) (combine a b).
Proof.
  revert b. induction a as [| x a IH]; intros [| y b]; simpl; try reflexivity.
  now rewrite IH.
Qed.

(** On operands of one length nothing is recycled: [==] is element-wise. *)
Lemma vec_eq_same_length (a b : list RScript.rnumeric) :
  length a = length b ->
  RScript.vec_eq a b
  = List.map (fun p => RScript.num_eq (fst p) (snd p)) (combine a b).
Proof.
  intros Hlen. destruct a as [| x a], b as [| y b]; try discriminate Hlen;
    [reflexivity |].
  unfold RScript.vec_eq. rewrite <- Hlen, Nat.max_id.
  rewrite recycle_full. rewrite Hlen, recycle_full.
  rewrite combine_map_Some, List.map_map. reflexivity.
Qed.

Lemma compare_lists_length (a b : list RScript.rnumeric) :
  length a = length b -> length (RScript.compare_lists a b) = length a.
Proof.
  intros Hlen. unfold RScript.compare_lists.
  rewrite vec_eq_same_length by exact Hlen.
  rewrite !List.length_map, List.length_combine. lia.
Qed.

Section DirectFraction.
Context {L : Type} `{EqDecision L}.
Variables (negative positive : L) (code : L -> Z).
Hypothesis code_distinct : code negative <> code positive.

(** [sum(compare_lists(predicted, actual))] counts the agreements. *)
Lemma rsum_compare_lists (predicted actual : list L) :
  length predicted = length actual ->
  Props.binary negative positive predicted ->
  Props.binary negative positive actual ->
  RScript.rsum (RScript.compare_lists (Props.numbered code predicted)
                                       (Props.numbered code actual))
  = Some (Props.agreements predicted actual).
Proof.
  intros Hlen Hp Ha. unfold RScript.compare_lists.
  rewrite vec_eq_same_length
    by (unfold Props.numbered; rewrite !List.length_map; exact Hlen).
  clear Hlen. unfold Props.numbered. revert actual Ha.
  induction predicted as [| p ps IH]; intros [| a az] Ha; try reflexivity.
  inversion Hp as [| ? ? Hp1 Hp2]; inversion Ha as [| ? ? Ha1 Ha2]; subst.
  specialize (IH Hp2 az Ha2).
  cbn [List.map combine RScript.rsum fst snd Props.agreements].
  rewrite IH. unfold RScript.num_eq, RScript.ifelse1.
  destruct Hp1 as [-> | ->], Ha1 as [-> | ->];
    destruct (decide _) as [E | E]; try congruence;
    try rewrite Z.eqb_refl; try reflexivity.
  - destruct (Z.eqb_spec (code negative) (code positive)); [congruence | reflexivity].
  - destruct (Z.eqb_spec (code positive) (code negative)); [congruence | reflexivity].
Qed.
End DirectFraction.

(** Decides [binary] on a vector of literals. *)
Ltac binary_vector :=
  repeat (constructor; [first [left; reflexivity | right; reflexivity] |]);
  constructor.

(** C2: for binary predicted and actual label vectors of one length [N],
    the accuracy [(tp + tn)/N] read off the confusion matrix, with [tp] at
    row 1, column 1 and [tn] at row 0, column 0, is the directly computed
    fraction [count(predicted == actual)/N] of [compare_lists]. *)
Theorem C2_accuracy_from_confusion_matrix
    {L : Type} `{EqDecision L} (negative positive : L) (code : L -> Z)
    (y_true y_pred : list L) (N : nat) :
  negative <> positive ->
  code negative <> code positive ->
  length y_true = N -> length y_pred = N -> (0 < N)%nat ->
  Props.binary negative positive y_true ->
  Props.binary negative positive y_pred ->
  Notebook.fm_test_acc (Sklearn.confusion_matrix negative positive y_true y_pred) N
  = Ok (ratio (Props.agreements y_pred y_true) (Z.of_nat N))
  /\ RScript.mean_of (RScript.compare_lists (Props.numbered code y_pred)
                                           (Props.numbered code y_true))
     = Some (ratio (Props.agreements y_pred y_true) (Z.of_nat N)).
Proof.
  intros Hd Hc Ht Hp HN Bt Bp. split.
  - unfold Notebook.fm_test_acc, Sklearn.confusion_matrix. cbn.
    now rewrite (count_pairs_diagonal negative positive Hd y_true y_pred Bt Bp).
  - assert (Hlen : length (Props.numbered code y_pred)
                   = length (Props.numbered code y_true))
      by (unfold Props.numbered; rewrite !List.length_map; lia).
    assert (Hn := compare_lists_length _ _ Hlen).
    unfold RScript.mean_of.
    rewrite (rsum_compare_lists negative positive code Hc y_pred y_true)
      by (try assumption; lia).
    destruct (RScript.compare_lists _ _) as [| c cs] eqn:E.
    + unfold Props.numbered in Hn. rewrite List.length_map in Hn.
      simpl in Hn. lia.
    + rewrite Hn. unfold Props.numbered. rewrite List.length_map, Hp.
      reflexivity.
Qed.

Lemma C2_accuracy_from_confusion_matrix_witness :
  Notebook.fm_test_acc
    (Notebook.attr_forest_CM ["No"; "Yes"; "No"; "No"] ["No"; "No"; "Yes"; "No"]) 4
  = Ok 0.5%float
  /\ RScript.mean_of (RScript.compare_lists [Some 1; Some 1; Some 0; Some 1]
                                           [Some 1; Some 0; Some 1; Some 1])
     = Some 0.5%float.
Proof.
  assert (Hw := C2_accuracy_from_confusion_matrix "No" "Yes"
           (fun s => if String.eqb s "No" then 1 else 0)
           ["No"; "Yes"; "No"; "No"] ["No"; "No"; "Yes"; "No"] 4
           ltac:(discriminate) ltac:(discriminate) eq_refl eq_refl ltac:(lia)
           ltac:(binary_vector) ltac:(binary_vector)).
  vm_compute in Hw |- *. exact Hw.
Defined.

(** C9: the confusion matrix of a test set of [M] binary labels has four
    entries, each a non-negative integer, and they sum to [M]. *)
Theorem C9_confusion_matrix_entries
    {L : Type} `{EqDecision L} (negative positive : L)
    (y_true y_pred : list L) (M : nat) :
  negative <> positive ->
  length y_true = M -> length y_pred = M ->
  Props.binary negative positive y_true ->
  Props.binary negative positive y_pred ->
  exists tn fp fn tp : Z,
    Sklearn.confusion_matrix negative positive y_true y_pred = [[tn; fp]; [fn; tp]]
    /\ 0 <= tn /\ 0 <= fp /\ 0 <= fn /\ 0 <= tp
    /\ tn + fp + fn + tp = Z.of_nat M.
Proof.
  intros Hd Ht Hp Bt Bp.
  eexists _, _, _, _. split; [reflexivity |].
  repeat split; try apply count_pairs_nonneg.
  rewrite <- Ht. apply count_pairs_total; try assumption. lia.
Qed.

Lemma C9_confusion_matrix_entries_witness :
  exists tn fp fn tp : Z,
    Notebook.attr_forest_CM ["No"; "Yes"; "No"; "No"] ["No"; "No"; "Yes"; "No"]
    = [[tn; fp]; [fn; tp]]
    /\ 0 <= tn /\ 0 <= fp /\ 0 <= fn /\ 0 <= tp
    /\ tn + fp + fn + tp = Z.of_nat 4.
Proof.
  apply (C9_confusion_matrix_entries "No" "Yes"
           ["No"; "Yes"; "No"; "No"] ["No"; "No"; "Yes"; "No"] 4).
  - discriminate.
  - reflexivity.
  - reflexivity.
  - binary_vector.
  - binary_vector.
Defined.

(** ** The train/test split *)

Import Sklearn.

Lemma py_round_nonneg (q : Q) : (0 <= q)%Q -> 0 <= py_round q.
Proof.
  intros Hq. unfold py_round.
  assert (Hf : 0 <= Qfloor q).
  { rewrite <- (Qfloor_Z 0). now apply Qfloor_resp_le. }
  destruct (Qcompare _ _); [destruct (Z.even _) | |]; lia.
Qed.

Lemma py_round_le (q : Q) (n : Z) : (q <= inject_Z n)%Q -> py_round q <= n.
Proof.
  intros Hq. unfold py_round.
  assert (Hf : Qfloor q <= n).
  { rewrite <- (Qfloor_Z n). now apply Qfloor_resp_le. }
  destruct (Z.eq_dec (Qfloor q) n) as [E | E].
  - assert (Hlt : (q - inject_Z (Qfloor q) < 1 # 2)%Q).
    { rewrite E. apply Qle_lt_trans with (y := 0%Q); [| reflexivity].
      apply (Qplus_le_l _ _ (inject_Z n)). ring_simplify. exact Hq. }
    assert (Hc : Qcompare (q - inject_Z (Qfloor q)) (1 # 2) = Lt)
      by (apply Qlt_alt; exact Hlt).
    rewrite Hc. exact Hf.
  - destruct (Qcompare _ _); [destruct (Z.even _) | |]; lia.
Qed.

Lemma n_test_le (test_size : Q) (n : nat) :
  (0 <= test_size)%Q -> (test_size <= 1)%Q -> (n_test test_size n <= n)%nat.
Proof.
  intros H0 H1. unfold n_test.
  assert (Hn : (0 <= inject_Z (Z.of_nat n))%Q).
  { change 0%Q with (inject_Z 0). rewrite <- Zle_Qle. lia. }
  assert (Hr : py_round (test_size * inject_Z (Z.of_nat n)) <= Z.of_nat n).
  { apply py_round_le.
    rewrite <- (Qmult_1_l (inject_Z (Z.of_nat n))) at 2.
    apply Qmult_le_compat_r; assumption. }
  lia.
Qed.

Lemma n_test_round (test_size : Q) (n : nat) :
  (0 <= test_size)%Q ->
  Z.of_nat (n_test test_size n) = py_round (test_size * inject_Z (Z.of_nat n)).
Proof.
  intros H0. unfold n_test. apply Z2Nat.id. apply py_round_nonneg.
  apply Qmult_le_0_compat; [exact H0 |].
  change 0%Q with (inject_Z 0). rewrite <- Zle_Qle. lia.
Qed.

Section SplitFacts.
Variables (R : RandomState) (ambient : rng R).
Hypothesis lawful : shuffles R.
Variables (random_state : option Z) (test_size : Q) (n : nat).
Hypothesis size_lo : (0 <= test_size)%Q.
Hypothesis size_hi : (test_size <= 1)%Q.

Let train := fst (split_indices R ambient random_state test_size n).
Let test := snd (split_indices R ambient random_state test_size n).

Lemma split_indices_perm : Permutation (test ++ train) (seq 0 n).
Proof.
  subst train test. unfold split_indices. cbn [fst snd].
  rewrite firstn_skipn. apply lawful.
Qed.

Lemma split_indices_NoDup : List.NoDup (test ++ train).
Proof.
  apply (Permutation_NoDup (Permutation_sym split_indices_perm)).
  apply seq_NoDup.
Qed.

Lemma split_indices_cover (i : nat) : In i train \/ In i test <-> (i < n)%nat.
Proof.
  split; intros Hi.
  - assert (Hin : In i (test ++ train)) by (apply in_app_iff; tauto).
    apply (Permutation_in _ split_indices_perm) in Hin.
    apply in_seq in Hin. lia.
  - assert (Hin : In i (test ++ train)).
    { apply (Permutation_in _ (Permutation_sym split_indices_perm)).
      apply in_seq. lia. }
    apply in_app_iff in Hin. tauto.
Qed.

Lemma split_indices_test_length : length test = n_test test_size n.
Proof.
  subst test. unfold split_indices. cbn [snd].
  rewrite List.length_firstn.
  assert (Hp := Permutation_length (lawful
    match random_state with Some seed => seeded R seed | None => ambient end n)).
  rewrite List.length_seq in Hp. rewrite Hp.
  pose proof (n_test_le test_size n size_lo size_hi). lia.
Qed.

Lemma split_indices_lengths : (length train + length test = n)%nat.
Proof.
  assert (H := Permutation_length split_indices_perm).
  rewrite List.length_app, List.length_seq in H. lia.
Qed.
End SplitFacts.

Lemma take_rows_length {A} (X : list A) (idx : list nat) :
  (forall i, In i idx -> (i < length X)%nat) ->
  length (take_rows X idx) = length idx.
Proof.
  unfold take_rows. induction idx as [| i idx IH]; intros Hidx; [reflexivity |].
  cbn [omap list_omap].
  destruct (nth_error X i) eqn:E.
  - cbn [length]. f_equal. apply IH. intros j Hj. apply Hidx. now right.
  - apply nth_error_None in E. specialize (Hidx i (or_introl eq_refl)). lia.
Qed.

Lemma take_rows_nth {A} (X : list A) (idx : list nat) (k : nat) :
  (forall i, In i idx -> (i < length X)%nat) ->
  nth_error (take_rows X idx) k
  = match nth_error idx k with
    | Some i => nth_error X i
    | None => None
    end.
Proof.
  unfold take_rows. revert k. induction idx as [| i idx IH]; intros k Hidx.
  - now destruct k.
  - cbn [omap list_omap]. destruct (nth_error X i) as [x |] eqn:E.
    + destruct k as [| k]; cbn [nth_error]; [now rewrite E |].
      apply IH. intros j Hj. apply Hidx. now right.
    + apply nth_error_None in E. specialize (Hidx i (or_introl eq_refl)). lia.
Qed.

Lemma take_rows_app {A} (X : list A) (idx1 idx2 : list nat) :
  take_rows X (idx1 ++ idx2) = (take_rows X idx1 ++ take_rows X idx2)%list.
Proof.
  unfold take_rows. induction idx1 as [| i idx1 IH]; [reflexivity |].
  cbn [app omap list_omap]. destruct (nth_error X i); cbn [app]; now rewrite IH.
Qed.

Lemma take_rows_Permutation {A} (X : list A) (idx1 idx2 : list nat) :
  Permutation idx1 idx2 -> Permutation (take_rows X idx1) (take_rows X idx2).
Proof.
  unfold take_rows. induction 1 as [| i l1 l2 _ IH | i j l | l1 l2 l3 _ IH1 _ IH2].
  - constructor.
  - cbn [omap list_omap]. destruct (nth_error X i); [now constructor | exact IH].
  - cbn [omap list_omap]. destruct (nth_error X i), (nth_error X j);
      try reflexivity. apply perm_swap.
  - now transitivity (omap (fun i => nth_error X i) l2).
Qed.

Lemma take_rows_from {A} (pre X : list A) :
  take_rows (pre ++ X) (seq (length pre) (length X)) = X.
Proof.
  unfold take_rows. revert pre. induction X as [| x X IH]; intros pre; [reflexivity |].
  cbn [length seq omap list_omap].
  rewrite List.nth_error_app2 by lia. rewrite Nat.sub_diag. cbn [nth_error].
  f_equal. specialize (IH (pre ++ [x])%list).
  rewrite <- List.app_assoc, List.length_app in IH. cbn [length app] in IH.
  now rewrite Nat.add_1_r in IH.
Qed.

Lemma take_rows_all {A} (X : list A) : take_rows X (seq 0 (length X)) = X.
Proof. exact (take_rows_from [] X). Qed.

(** The rows of the two partitions are, together, the rows of the table,
    each once. *)
Lemma take_rows_split {A} (R : RandomState) (ambient : rng R)
    (random_state : option Z) (test_size : Q) (X : list A) :
  shuffles R ->
  Permutation
    (take_rows X (fst (split_indices R ambient random_state test_size (length X)))
     ++ take_rows X (snd (split_indices R ambient random_state test_size (length X))))
    X.
Proof.
  intros HR. rewrite <- take_rows_app.
  transitivity (take_rows X (seq 0 (length X)));
    [| now rewrite take_rows_all].
  apply take_rows_Permutation.
  etransitivity; [apply Permutation_app_comm |].
  now apply split_indices_perm.
Qed.

Lemma split_indices_partition (R : RandomState) (ambient : rng R)
    (random_state : option Z) (test_size : Q) (n : nat) :
  shuffles R ->
  Props.partition_of_rows
    (fst (split_indices R ambient random_state test_size n))
    (snd (split_indices R ambient random_state test_size n)) n.
Proof.
  intros HR.
  assert (Hnd := split_indices_NoDup R ambient HR random_state test_size n).
  apply List.NoDup_app_remove_l in Hnd as Htrain.
  apply List.NoDup_app_remove_r in Hnd as Htest.
  repeat split.
  - intros i Hi Hj. apply in_split in Hj as (l1 & l2 & E).
    rewrite E, <- List.app_assoc in Hnd. apply List.NoDup_remove_2 in Hnd.
    apply Hnd. rewrite List.app_assoc. apply in_app_iff. now right.
  - now apply split_indices_cover.
  - now apply split_indices_cover.
  - exact Htrain.
  - exact Htest.
  - now apply split_indices_lengths.
Qed.

Lemma train_test_split_sizes {A B} (R : RandomState) (ambient : rng R)
    (X : list A) (y : list B) (test_size : Q) (random_state : option Z) :
  shuffles R -> (0 <= test_size)%Q -> (test_size <= 1)%Q ->
  length y = length X ->
  let sp := train_test_split R ambient X y test_size random_state in
  length (xtest sp) = n_test test_size (length X)
  /\ length (ytest sp) = n_test test_size (length X)
  /\ length (xtrain sp) = (length X - n_test test_size (length X))%nat
  /\ length (ytrain sp) = (length X - n_test test_size (length X))%nat.
Proof.
  intros HR H0 H1 Hy sp. subst sp. unfold train_test_split.
  assert (Hc := split_indices_cover R ambient HR random_state test_size (length X)).
  assert (Ht := split_indices_test_length R ambient HR random_state test_size
                  (length X) H0 H1).
  assert (Hs := split_indices_lengths R ambient HR random_state test_size (length X)).
  destruct (split_indices R ambient random_state test_size (length X))
    as [train test]. cbn [fst snd] in *. cbn [xtrain xtest ytrain ytest].
  rewrite !take_rows_length; [lia | | | |];
    intros i Hi; try rewrite Hy; apply Hc; tauto.
Qed.

Lemma flip_shuffles : shuffles Sample.flip.
Proof.
  intros r n. cbn. destruct (Z.even r); [reflexivity |].
  apply Permutation_sym, Permutation_rev.
Qed.

Lemma train_test_split_rows {A B} (R : RandomState) (ambient : rng R)
    (X : list A) (y : list B) (test_size : Q) (random_state : option Z) :
  shuffles R -> length y = length X ->
  let s := split_indices R ambient random_state test_size (length X) in
  let sp := train_test_split R ambient X y test_size random_state in
  Props.rows_at X (fst s) (xtrain sp) /\ Props.rows_at X (snd s) (xtest sp)
  /\ Props.rows_at y (fst s) (ytrain sp) /\ Props.rows_at y (snd s) (ytest sp)
  /\ Permutation (xtrain sp ++ xtest sp) X
  /\ Permutation (ytrain sp ++ ytest sp) y.
Proof.
  intros HR Hy s sp.
  assert (Hc := split_indices_cover R ambient HR random_state test_size (length X)).
  assert (Px := take_rows_split R ambient random_state test_size X HR).
  assert (Py := take_rows_split R ambient random_state test_size y HR).
  rewrite Hy in Py. fold s in Hc, Px, Py.
  subst sp. unfold train_test_split. fold s.
  destruct s as [train test]. cbn [fst snd] in *. cbn [xtrain xtest ytrain ytest].
  assert (Hx1 : forall i, In i train -> (i < length X)%nat) by (intros i Hi; apply Hc; tauto).
  assert (Hx2 : forall i, In i test -> (i < length X)%nat) by (intros i Hi; apply Hc; tauto).
  assert (Hy1 : forall i, In i train -> (i < length y)%nat) by (rewrite Hy; exact Hx1).
  assert (Hy2 : forall i, In i test -> (i < length y)%nat) by (rewrite Hy; exact Hx2).
  unfold Props.rows_at.
  repeat split; try (now apply take_rows_length); try assumption;
    intros k; now apply take_rows_nth.
Qed.

(** C3: for a table of [N] rows and a test fraction between 0 and 1, the
    train and test index sets share no row, cover all rows, their sizes sum
    to [N], and the test partition has [round(fraction * N)] rows; the four
    partitions returned are the rows of the predictors and of the response
    at those index sets, so the training and test rows are, together, the
    rows of the table, each once; cell 43 on a table of 1470 rows yields
    1176 training rows and 294 test rows. *)
Theorem C3_split_partitions (R : RandomState) (ambient : rng R)
    (random_state : option Z) (fraction : Q) (N : nat) :
  shuffles R -> (0 <= fraction)%Q -> (fraction <= 1)%Q ->
  let s := split_indices R ambient random_state fraction N in
  Props.partition_of_rows (fst s) (snd s) N
  /\ Z.of_nat (length (snd s)) = py_round (fraction * inject_Z (Z.of_nat N))
  /\ (forall (A B : Type) (X : list A) (y : list B),
        length X = N -> length y = N ->
        let sp := train_test_split R ambient X y fraction random_state in
        Props.rows_at X (fst s) (xtrain sp) /\ Props.rows_at X (snd s) (xtest sp)
        /\ Props.rows_at y (fst s) (ytrain sp) /\ Props.rows_at y (snd s) (ytest sp)
        /\ Permutation (xtrain sp ++ xtest sp) X
        /\ Permutation (ytrain sp ++ ytest sp) y
        /\ (length (xtrain sp) + length (xtest sp) = N)%nat
        /\ Z.of_nat (length (xtest sp)) = py_round (fraction * inject_Z (Z.of_nat N)))
  /\ (forall (A B : Type) (X : list A) (y : list B),
        length X = 1470%nat -> length y = 1470%nat ->
        let sp := Notebook.split_cell43 R ambient X y in
        length (xtrain sp) = 1176%nat /\ length (xtest sp) = 294%nat
        /\ length (ytrain sp) = 1176%nat /\ length (ytest sp) = 294%nat).
Proof.
  intros HR H0 H1 s. subst s.
  assert (Hpart := split_indices_partition R ambient random_state fraction N HR).
  assert (Ht := split_indices_test_length R ambient HR random_state fraction N H0 H1).
  assert (Hround := n_test_round fraction N H0).
  split; [exact Hpart |].
  split; [now rewrite Ht |].
  split.
  - intros A B X y HX Hy sp.
    destruct (train_test_split_rows R ambient X y fraction random_state HR
                ltac:(congruence)) as (R1 & R2 & R3 & R4 & P1 & P2).
    fold sp in R1, R2, R3, R4, P1, P2. rewrite HX in R1, R2, R3, R4.
    repeat split; try apply R1; try apply R2; try apply R3; try apply R4;
      try assumption.
    + destruct R1 as [L1 _], R2 as [L2 _].
      destruct Hpart as (_ & _ & _ & _ & Hsum). lia.
    + destruct R2 as [L2 _]. now rewrite L2, Ht.
  - intros A B X y HX Hy sp.
    destruct (train_test_split_sizes R ambient X y (1 # 5) (Some 0) HR
                ltac:(discriminate) ltac:(discriminate) ltac:(congruence))
      as (E1 & E2 & E3 & E4).
    fold (Notebook.split_cell43 R ambient X y) in E1, E2, E3, E4.
    fold sp in E1, E2, E3, E4. rewrite HX in E1, E2, E3, E4.
    change (n_test (1 # 5) 1470) with 294%nat in E1, E2, E3, E4.
    repeat split; assumption.
Qed.

Lemma C3_split_partitions_witness :
  Props.partition_of_rows [7; 6; 5; 4; 3; 2; 1; 0]%nat [9; 8]%nat 10
  /\ Z.of_nat (length [9; 8]%nat) = 2
  /\ Props.rows_at ["a"; "b"; "c"; "d"; "e"; "f"; "g"; "h"; "i"; "j"]
       [7; 6; 5; 4; 3; 2; 1; 0]%nat ["h"; "g"; "f"; "e"; "d"; "c"; "b"; "a"]
  /\ Props.rows_at ["a"; "b"; "c"; "d"; "e"; "f"; "g"; "h"; "i"; "j"]
       [9; 8]%nat ["j"; "i"]
  /\ length (xtest (Notebook.split_cell43 Sample.flip 0 (seq 0 1470) (seq 0 1470)))
     = 294%nat.
Proof.
  destruct (C3_split_partitions Sample.flip 0 (Some 0) (1 # 5) 10 flip_shuffles
              ltac:(discriminate) ltac:(discriminate)) as (Hp & Hr & Hrows & H1470).
  destruct (Hrows string nat ["a"; "b"; "c"; "d"; "e"; "f"; "g"; "h"; "i"; "j"]
              (seq 0 10) eq_refl eq_refl) as (R1 & R2 & _).
  split; [exact Hp | split; [exact Hr |]].
  split; [exact R1 | split; [exact R2 |]].
  apply (H1470 nat nat); apply List.length_seq.
Defined.

(** Without a seed the partition follows the process's generator, and two
    runs may differ. *)
Example split_unseeded_differs :
  xtest (train_test_split Sample.flip 0 (seq 0 10) (seq 0 10) (1 # 5) None) = [0; 1]%nat
  /\ xtest (train_test_split Sample.flip 1 (seq 0 10) (seq 0 10) (1 # 5) None) = [9; 8]%nat.
Proof. split; reflexivity. Qed.

(** ** A box plot of a text column *)

Example boxplot_of_text_column :
  Notebook.plot_figure Sample.empattr "Gender" None None (Some "boxplot") (Some "Attrition")
  = Raise ValueError.
Proof. reflexivity. Qed.

(** ** The feature classifier *)

Import Pandas Notebook.

Lemma getitem_Ok_iff (df : DataFrame) (c : string) :
  (exists s, getitem df c = Ok s) <-> In c (columns df).
Proof.
  induction df as [| [n s] df IH]; cbn [getitem columns List.map fst].
  - split; [intros [s Hs]; discriminate | intros []].
  - destruct (String.eqb_spec n c) as [-> | Hne].
    + split; [intros _; now left | intros _; now exists s].
    + rewrite IH. unfold columns. split; [now right | intros [? | ?]; [contradiction | assumption]].
Qed.

Lemma getitem_Raise (df : DataFrame) (c : string) (e : exn) :
  getitem df c = Raise e -> e = KeyError c /\ ~ In c (columns df).
Proof.
  intros He. split.
  - induction df as [| [n s] df IH]; cbn [getitem] in He; [congruence |].
    destruct (String.eqb n c); [discriminate | auto].
  - intros Hin. apply getitem_Ok_iff in Hin as [s Hs]. congruence.
Qed.

Lemma getitems_Ok_iff (df : DataFrame) (labels : list string) :
  (exists t, getitems df labels = Ok t) <-> (forall c, In c labels -> In c (columns df)).
Proof.
  induction labels as [| c labels IH]; cbn [getitems].
  - split; [intros _ c [] | intros _; now exists []].
  - split.
    + intros [t Ht] x [<- | Hx].
      * apply getitem_Ok_iff. destruct (getitem df c) as [s |]; [now exists s | discriminate].
      * apply IH; [| exact Hx].
        destruct (getitem df c) as [s |]; [| discriminate].
        cbn in Ht. destruct (getitems df labels) as [t' |]; [now exists t' | discriminate].
    + intros Hall.
      destruct (proj2 (getitem_Ok_iff df c) (Hall c (or_introl eq_refl))) as [s ->].
      destruct (proj2 IH (fun x Hx => Hall x (or_intror Hx))) as [t ->].
      now eexists.
Qed.

Lemma getitems_Raise (df : DataFrame) (labels : list string) (e : exn) :
  getitems df labels = Raise e ->
  exists x, e = KeyError x /\ In x labels /\ ~ In x (columns df).
Proof.
  induction labels as [| c labels IH]; cbn [getitems]; [discriminate |].
  destruct (getitem df c) as [s |] eqn:Ec.
  - cbn. destruct (getitems df labels) as [t |]; [discriminate |].
    cbn. intros He. destruct (IH He) as (x & ? & ? & ?).
    exists x. repeat split; [assumption | now right | assumption].
  - cbn. intros [= <-]. apply getitem_Raise in Ec as [-> Hc].
    exists c. repeat split; [now left | assumption].
Qed.

Lemma objcols_columns (df : DataFrame) (c : string) :
  In c (objcols df) -> In c (columns df).
Proof. unfold objcols. intros H. now apply List.filter_In in H. Qed.

(** The classifier stops only at cell 19, and only on a missing
    declared-categorical column. *)
Lemma feature_classifier_Ok_iff (empattr : DataFrame) :
  (exists c, feature_classifier empattr = Ok c)
  <-> (forall x, In x catcols -> In x (columns empattr)).
Proof.
  unfold feature_classifier. split.
  - intros [c Hc] x Hx.
    destruct (getitems empattr (objcols empattr ++ catcols)) as [t |] eqn:E;
      [| discriminate].
    apply (proj1 (getitems_Ok_iff empattr _) (ex_intro _ t E)).
    apply in_app_iff. now right.
  - intros Hall.
    destruct (proj2 (getitems_Ok_iff empattr (objcols empattr ++ catcols))) as [t ->].
    + intros c Hc. apply in_app_iff in Hc as [Hc | Hc];
        [now apply objcols_columns | now apply Hall].
    + now eexists.
Qed.

Lemma overlap_empty_iff (objs cats : list string) :
  overlap objs cats = ∅ <-> (forall x, In x cats -> ~ In x objs).
Proof.
  unfold overlap. setoid_rewrite <- list_elem_of_In. split.
  - intros He x Hc Ho.
    apply (not_elem_of_empty (C := gset string) x). rewrite <- He.
    apply elem_of_intersection. split; now apply elem_of_list_to_set.
  - intros Hno. apply set_eq. intros x. split.
    + intros [Ho Hc]%elem_of_intersection.
      apply elem_of_list_to_set in Ho, Hc. now destruct (Hno x Hc).
    + intros []%not_elem_of_empty.
Qed.

Lemma feature_classifier_fields (empattr : DataFrame) (c : Classification) :
  feature_classifier empattr = Ok c ->
  cls_objcols c = objcols empattr
  /\ cls_catcols c = catcols
  /\ cls_shown c = overlap (objcols empattr) catcols
  /\ cls_numerical c = empattr_numerical_cols empattr (objcols empattr) catcols.
Proof.
  intros Hc. unfold feature_classifier in Hc.
  destruct (getitems empattr (objcols empattr ++ catcols)) as [t |];
    [| discriminate].
  cbn in Hc. injection Hc as <-. repeat split.
Qed.

(** C5 (amended): the classifier computes the intersection of the
    object-typed and the declared-categorical columns and shows it, and
    asserts nothing about it: the classification cells end normally exactly
    when every declared-categorical column is in the table, with the same
    classification whether or not the intersection is empty; they stop, with
    [KeyError], only on a declared-categorical column that is missing. *)
Theorem C5_overlap_is_shown_not_asserted (empattr : DataFrame) :
  ((exists c, feature_classifier empattr = Ok c)
   <-> (forall x, In x catcols -> In x (columns empattr)))
  /\ (forall c, feature_classifier empattr = Ok c ->
        cls_shown c = overlap (objcols empattr) catcols
        /\ cls_objcols c = objcols empattr
        /\ cls_catcols c = catcols)
  /\ (overlap (objcols empattr) catcols = ∅
      <-> (forall x, In x catcols -> ~ In x (objcols empattr)))
  /\ (forall e, feature_classifier empattr = Raise e ->
        exists x, e = KeyError x /\ In x catcols /\ ~ In x (columns empattr)).
Proof.
  split; [apply feature_classifier_Ok_iff |].
  split.
  { intros c Hc. apply feature_classifier_fields in Hc as (Ho & Hk & Hs & _).
    repeat split; assumption. }
  split; [apply overlap_empty_iff |].
  intros e He. unfold feature_classifier in He.
  destruct (getitems empattr (objcols empattr ++ catcols)) as [t |] eqn:E;
    [discriminate |].
  cbn in He. injection He as <-.
  apply getitems_Raise in E as (x & -> & Hx & Hn).
  exists x. repeat split; [| exact Hn].
  apply in_app_iff in Hx as [Hx | Hx]; [| exact Hx].
  exfalso. apply Hn. now apply objcols_columns.
Qed.

(** C5, as stated, fails: on a table whose [Education] column holds text
    the intersection is not empty and the run ends normally, with the
    intersection only shown. *)
Lemma C5_counterexample :
  exists c,
    feature_classifier Sample.empattr_text_education = Ok c
    /\ cls_shown c = {[ "Education" ]}
    /\ cls_shown c <> ∅.
Proof.
  eexists. split; [reflexivity |]. cbn [cls_shown].
  assert (E : overlap (objcols Sample.empattr_text_education) catcols
              = {[ "Education" ]}).
  { apply set_eq. intros x. unfold overlap.
    change (objcols Sample.empattr_text_education)
      with ["Attrition"; "Education"; "Gender"].
    unfold catcols. set_solver. }
  rewrite E. split; [reflexivity |]. set_solver.
Qed.

Lemma numerical_cols_set (empattr : DataFrame) (objs cats : list string) :
  Props.col_set (empattr_numerical_cols empattr objs cats)
  = numerical_set empattr objs cats.
Proof.
  unfold Props.col_set, empattr_numerical_cols. apply list_to_set_elements_L.
Qed.

Lemma col_set_In (l : list string) (x : string) : x ∈ Props.col_set l <-> In x l.
Proof. unfold Props.col_set. rewrite elem_of_list_to_set. apply list_elem_of_In. Qed.

Lemma numerical_set_In (empattr : DataFrame) (objs cats : list string) (x : string) :
  x ∈ numerical_set empattr objs cats
  <-> In x (columns empattr) /\ ~ In x objs /\ ~ In x cats.
Proof.
  unfold numerical_set. rewrite elem_of_difference, !elem_of_list_to_set.
  rewrite !list_elem_of_In, in_app_iff. tauto.
Qed.

(** C6 (amended): for a loaded table whose [Attrition] column holds text,
    in which every declared-categorical column is present and none of them
    is object-typed, the object-typed, declared-categorical and numerical
    column sets are pairwise disjoint and their union is the full column
    set, the response column [Attrition] included: [Attrition] is a member
    of the object-typed set. *)
Theorem C6_classes_partition_all_columns (empattr : DataFrame) (labels : list string) :
  getitem empattr "Attrition" = Ok (ObjCol labels) ->
  (forall x, In x catcols -> In x (columns empattr)) ->
  (forall x, In x catcols -> ~ In x (objcols empattr)) ->
  exists c,
    feature_classifier empattr = Ok c
    /\ Props.col_set (cls_objcols c) ## Props.col_set (cls_catcols c)
    /\ Props.col_set (cls_objcols c) ## Props.col_set (cls_numerical c)
    /\ Props.col_set (cls_catcols c) ## Props.col_set (cls_numerical c)
    /\ Props.class_union c = Props.col_set (columns empattr)
    /\ In "Attrition" (cls_objcols c)
    /\ "Attrition" ∈ Props.col_set (cls_objcols c)
    /\ "Attrition" ∈ Props.class_union c.
Proof.
  intros Hattr Hpresent Hint.
  assert (Hobj : In "Attrition" (objcols empattr)).
  { unfold objcols. apply List.filter_In. split.
    - apply getitem_Ok_iff. eauto.
    - now rewrite Hattr. }
  destruct (proj2 (feature_classifier_Ok_iff empattr) Hpresent) as [c Hc].
  destruct (feature_classifier_fields empattr c Hc) as (Ho & Hk & _ & Hn).
  exists c. split; [exact Hc |].
  unfold Props.class_union. rewrite Ho, Hk, Hn, numerical_cols_set.
  split.
  { intros x Hx1 Hx2. apply col_set_In in Hx1, Hx2. now apply (Hint x). }
  split.
  { intros x Hx1 Hx2. apply col_set_In in Hx1.
    apply numerical_set_In in Hx2. tauto. }
  split.
  { intros x Hx1 Hx2. apply col_set_In in Hx1.
    apply numerical_set_In in Hx2. tauto. }
  assert (Hunion : Props.col_set (objcols empattr) ∪ Props.col_set catcols
                   ∪ numerical_set empattr (objcols empattr) catcols
                   = Props.col_set (columns empattr)).
  { apply set_eq. intros x.
    rewrite !elem_of_union, !col_set_In, numerical_set_In. split.
    - intros [[Hx | Hx] | Hx];
        [now apply objcols_columns | now apply Hpresent | tauto].
    - intros Hx.
      destruct (in_dec string_dec x (objcols empattr)); [tauto |].
      destruct (in_dec string_dec x catcols); tauto. }
  split; [exact Hunion |].
  split; [exact Hobj |].
  split; [now apply col_set_In |].
  apply elem_of_union. left. apply elem_of_union. left. now apply col_set_In.
Qed.

(** C6, as stated, fails: [Attrition] is itself an object-typed column, so
    the union of the three sets contains it and is not the column set
    without the response. *)
Lemma C6_counterexample :
  exists c,
    feature_classifier Sample.empattr = Ok c
    /\ In "Attrition" (cls_objcols c)
    /\ "Attrition" ∈ Props.class_union c
    /\ Props.class_union c <> Props.col_set (columns Sample.empattr) ∖ {[ "Attrition" ]}.
Proof.
  eexists. split; [reflexivity |].
  assert (Hobj : In "Attrition" (objcols Sample.empattr)) by (vm_compute; tauto).
  assert (Hin : "Attrition" ∈ Props.col_set (objcols Sample.empattr))
    by now apply col_set_In.
  split; [exact Hobj |].
  assert (Hu : "Attrition" ∈ Props.col_set (objcols Sample.empattr)
               ∪ Props.col_set catcols
               ∪ Props.col_set (empattr_numerical_cols Sample.empattr
                                  (objcols Sample.empattr) catcols)).
  { apply elem_of_union. left. apply elem_of_union. now left. }
  split; [exact Hu |].
  intros E. unfold Props.class_union in E. cbn [cls_objcols cls_catcols cls_numerical] in E.
  rewrite E in Hu. apply elem_of_difference in Hu as [_ Hu].
  apply Hu. now apply elem_of_singleton.
Qed.

Lemma C6_classes_partition_all_columns_witness :
  exists c,
    feature_classifier Sample.empattr = Ok c
    /\ Props.col_set (cls_objcols c) ## Props.col_set (cls_catcols c)
    /\ Props.col_set (cls_objcols c) ## Props.col_set (cls_numerical c)
    /\ Props.col_set (cls_catcols c) ## Props.col_set (cls_numerical c)
    /\ Props.class_union c = Props.col_set (columns Sample.empattr)
    /\ In "Attrition" (cls_objcols c)
    /\ "Attrition" ∈ Props.col_set (cls_objcols c)
    /\ "Attrition" ∈ Props.class_union c.
Proof.
  apply (C6_classes_partition_all_columns Sample.empattr
           ["Yes"; "No"; "Yes"; "No"; "No"]).
  - reflexivity.
  - intros x Hx. vm_compute in Hx |- *. tauto.
  - intros x Hx Ho. vm_compute in Hx, Ho.
    repeat (destruct Hx as [<- | Hx];
            [repeat (destruct Ho as [Ho | Ho]; [discriminate Ho |]); exact Ho |]).
    exact Hx.
Defined.

(** ** The encoder and the loaded table *)

Section Frame.
Variables (l : positive) (T : DataFrame).

Lemma load_kernel (x : string) (k : kernel) : snd (load x k) = k.
Proof.
  unfold load. destruct (vars k !! x) as [l0 |]; [| reflexivity].
  now destruct (heap k !! l0).
Qed.

Lemma assign_new_keeps (df : DataFrame) (k : kernel) :
  Props.keeps l T k ->
  Props.keeps l T (snd (assign_new "newdf" df k))
  /\ Props.works_beside l (snd (assign_new "newdf" df k)).
Proof.
  intros [Hv Hh]. unfold assign_new. cbn [snd].
  assert (Hfresh : fresh (dom (heap k)) <> l).
  { intros E. apply (is_fresh (dom (heap k))). rewrite E.
    apply elem_of_dom. now exists T. }
  split; [split |]; cbn [vars heap].
  - rewrite lookup_insert_ne by discriminate. exact Hv.
  - rewrite lookup_insert_ne by exact Hfresh. exact Hh.
  - exists (fresh (dom (heap k))). split; [apply lookup_insert_eq | exact Hfresh].
Qed.

Lemma cell72_keeps (k : kernel) :
  Props.keeps l T k ->
  Props.keeps l T (snd (cell72 k))
  /\ (fst (cell72 k) = Ok tt -> Props.works_beside l (snd (cell72 k))).
Proof.
  intros Hk. unfold cell72, cbind.
  assert (Hl := load_kernel "empattr" k).
  destruct (load "empattr" k) as [[df | e] k1]; cbn [snd] in Hl; subst k1.
  - destruct (assign_new_keeps df k Hk) as [H1 H2]. split; [exact H1 | now intros _].
  - split; [exact Hk | discriminate].
Qed.

Lemma cell73_keeps (k : kernel) :
  Props.keeps l T k ->
  Props.keeps l T (snd (cell73 k))
  /\ (fst (cell73 k) = Ok tt -> Props.works_beside l (snd (cell73 k))).
Proof.
  intros Hk. unfold cell73, cbind, lift.
  assert (Hl := load_kernel "newdf" k).
  destruct (load "newdf" k) as [[df | e] k1]; cbn [snd] in Hl; subst k1.
  - destruct (drop df _) as [df' | e].
    + destruct (assign_new_keeps df' k Hk) as [H1 H2].
      split; [exact H1 | now intros _].
    + split; [exact Hk | discriminate].
  - split; [exact Hk | discriminate].
Qed.

Lemma setitem_in_place_keeps (c : string) (col : Series) (k : kernel) :
  Props.keeps l T k -> Props.works_beside l k ->
  Props.keeps l T (snd (setitem_in_place "newdf" c col k))
  /\ Props.works_beside l (snd (setitem_in_place "newdf" c col k)).
Proof.
  intros [Hv Hh] (l' & Hn & Hne). unfold setitem_in_place. rewrite Hn.
  destruct (heap k !! l') as [df |]; cbn [snd].
  - split; [split |]; cbn [vars heap].
    + exact Hv.
    + rewrite lookup_insert_ne by exact Hne. exact Hh.
    + now exists l'.
  - split; [now split | now exists l'].
Qed.

Lemma recode_column_keeps (c : string) (k : kernel) :
  Props.keeps l T k -> Props.works_beside l k ->
  Props.keeps l T (snd (recode_column c k))
  /\ Props.works_beside l (snd (recode_column c k)).
Proof.
  intros Hk Hw. unfold recode_column, cbind, lift.
  assert (Hl := load_kernel "newdf" k).
  destruct (load "newdf" k) as [[df | e] k1]; cbn [snd] in Hl; subst k1;
    [| now split].
  destruct (getitem df c) as [col | e]; [| now split].
  now apply setitem_in_place_keeps.
Qed.

Lemma for_each_recode_keeps (cs : list string) (k : kernel) :
  Props.keeps l T k -> Props.works_beside l k ->
  Props.keeps l T (snd (for_each cs recode_column k)).
Proof.
  revert k. induction cs as [| c cs IH]; intros k Hk Hw; [exact Hk |].
  cbn [for_each]. unfold cbind.
  destruct (recode_column_keeps c k Hk Hw) as [H1 H2].
  destruct (recode_column c k) as [[[] | e] k1]; cbn [snd] in *.
  - now apply IH.
  - exact H1.
Qed.

Lemma encoder_keeps (objs : list string) (k : kernel) :
  Props.keeps l T k -> Props.keeps l T (snd (encoder objs k)).
Proof.
  intros Hk. unfold encoder, cbind.
  destruct (cell72_keeps k Hk) as [H1 W1].
  destruct (cell72 k) as [[[] | e] k1]; cbn [fst snd] in *; [| exact H1].
  destruct (cell73_keeps k1 H1) as [H2 W2].
  destruct (cell73 k1) as [[[] | e] k2]; cbn [fst snd] in *; [| exact H2].
  unfold cell74. apply for_each_recode_keeps; [exact H2 | now apply W2].
Qed.
End Frame.

(** C8: the encoder writes the integer codes into a working copy only:
    after cells 72 to 74, however they end, the name [empattr] denotes the
    object it denoted before and that object is the table as loaded; the
    same holds after cell 75. *)
Theorem C8_encoder_leaves_loaded_table (objs : list string) (k : kernel)
    (l : positive) (T : DataFrame) :
  vars k !! "empattr" = Some l -> heap k !! l = Some T ->
  (vars (snd (encoder objs k)) !! "empattr" = Some l
   /\ heap (snd (encoder objs k)) !! l = Some T)
  /\ (vars (snd (full_feature_path k)) !! "empattr" = Some l
      /\ heap (snd (full_feature_path k)) !! l = Some T).
Proof.
  intros Hv Hh. assert (Hk : Props.keeps l T k) by now split.
  split; [exact (encoder_keeps l T objs k Hk) |].
  unfold full_feature_path, cbind.
  assert (Hl := load_kernel "empattr" k).
  destruct (load "empattr" k) as [[df | e] k1]; cbn [snd] in Hl; subst k1;
    [| exact Hk].
  assert (He := encoder_keeps l T (objcols df) k Hk).
  destruct (encoder (objcols df) k) as [[[] | e] k2]; cbn [snd] in *; [| exact He].
  unfold cell75, cbind, lift.
  assert (Hl := load_kernel "newdf" k2).
  destruct (load "newdf" k2) as [[df' | e] k3]; cbn [snd] in Hl; subst k3;
    [| exact He].
  destruct (getitem df' "Attrition"); exact He.
Qed.

Lemma C8_encoder_leaves_loaded_table_witness :
  fst (encoder (objcols Sample.empattr) (loaded Sample.empattr)) = Ok tt
  /\ vars (snd (encoder (objcols Sample.empattr) (loaded Sample.empattr))) !! "empattr"
     = Some 1%positive
  /\ heap (snd (encoder (objcols Sample.empattr) (loaded Sample.empattr))) !! 1%positive
     = Some Sample.empattr.
Proof.
  split; [vm_compute; reflexivity |].
  apply (C8_encoder_leaves_loaded_table (objcols Sample.empattr)
           (loaded Sample.empattr) 1%positive Sample.empattr); reflexivity.
Defined.

(** On a kernel where [newdf] is only a second name of the loaded table,
    the loop of cell 74 rewrites the loaded table itself. *)
Example encoder_on_alias_rewrites :
  (r ← heap (snd (encoder_on_alias (objcols Sample.empattr) (loaded Sample.empattr)))
         !! 1%positive;
   match getitem r "Attrition" with Ok col => Some col | Raise _ => None end)
  = Some (IntCol [1; 0; 1; 0; 0]).
Proof. vm_compute. reflexivity. Qed.

(** With [newdf = empattr] in place of cell 72's copy, the drop of cell 73
    still gives [newdf] an object of its own, and the loaded table is left
    as it was. *)
Example encoder_without_copy_keeps :
  fst (encoder_without_copy (objcols Sample.empattr) (loaded Sample.empattr)) = Ok tt
  /\ heap (snd (encoder_without_copy (objcols Sample.empattr) (loaded Sample.empattr)))
       !! 1%positive
     = Some Sample.empattr.
Proof. split; vm_compute; reflexivity. Qed.

(** ** The encoded response *)

Lemma getitem_setitem_same (df : DataFrame) (c : string) (col : Series) :
  getitem (setitem df c col) c = Ok col.
Proof.
  induction df as [| [n s] df IH]; cbn [setitem getitem].
  - now rewrite String.eqb_refl.
  - destruct (String.eqb n c) eqn:E; cbn [getitem]; rewrite E; [reflexivity | exact IH].
Qed.

Lemma getitem_setitem_other (df : DataFrame) (c c' : string) (col : Series) :
  c' <> c -> getitem (setitem df c col) c' = getitem df c'.
Proof.
  intros Hne. induction df as [| [n s] df IH]; cbn [setitem getitem].
  - destruct (String.eqb_spec c c'); [congruence | reflexivity].
  - destruct (String.eqb_spec n c) as [-> | Hn]; cbn [getitem].
    + destruct (String.eqb_spec c c'); [congruence | reflexivity].
    + now rewrite IH.
Qed.

Lemma columns_setitem (df : DataFrame) (c : string) (col : Series) :
  In c (columns df) -> columns (setitem df c col) = columns df.
Proof.
  unfold columns. induction df as [| [n s] df IH]; cbn [setitem List.map fst];
    [intros [] |].
  intros Hin. destruct (String.eqb_spec n c) as [-> | Hn]; [reflexivity |].
  cbn [List.map fst]. f_equal. apply IH. destruct Hin; [contradiction | assumption].
Qed.

Lemma recode_all_Ok (cs : list string) (df : DataFrame) :
  (forall c, In c cs -> In c (columns df)) ->
  exists df', Props.recode_all cs df = Ok df' /\ columns df' = columns df.
Proof.
  revert df. induction cs as [| c cs IH]; intros df Hall; cbn [Props.recode_all].
  - now exists df.
  - destruct (proj2 (getitem_Ok_iff df c) (Hall c (or_introl eq_refl))) as [col ->].
    cbn. assert (Hc := columns_setitem df c (Sklearn.fit_transform col)
                          (Hall c (or_introl eq_refl))).
    destruct (IH (setitem df c (Sklearn.fit_transform col))) as (df' & E & Hcols).
    + intros x Hx. rewrite Hc. apply Hall. now right.
    + exists df'. split; [exact E | congruence].
Qed.

(** A column is recoded once for each time the loop names it. *)
Lemma recode_all_getitem (cs : list string) (df df' : DataFrame)
    (c0 : string) (col0 : Series) :
  Props.recode_all cs df = Ok df' ->
  getitem df c0 = Ok col0 ->
  getitem df' c0
  = Ok (Nat.iter (count_occ string_dec cs c0) Sklearn.fit_transform col0).
Proof.
  revert df col0. induction cs as [| c cs IH]; intros df col0 Hrun Hget;
    cbn [Props.recode_all] in Hrun.
  - injection Hrun as <-. exact Hget.
  - destruct (getitem df c) as [col |] eqn:Ec; [| discriminate]. cbn in Hrun.
    cbn [count_occ]. destruct (string_dec c c0) as [-> | Hne].
    + assert (col = col0) by congruence. subst col.
      rewrite Nat.iter_succ_r.
      apply (IH _ _ Hrun). apply getitem_setitem_same.
    + apply (IH _ _ Hrun). rewrite getitem_setitem_other by congruence. exact Hget.
Qed.

Lemma mem_In (c : string) (l : list string) : mem c l = true <-> In c l.
Proof.
  unfold mem. rewrite existsb_exists. split.
  - intros (x & Hx & E). apply String.eqb_eq in E. now subst.
  - intros H. exists c. split; [exact H | apply String.eqb_refl].
Qed.

Lemma drop_Ok (df : DataFrame) (labels : list string) :
  (forall c, In c labels -> In c (columns df)) ->
  drop df labels = Ok (List.filter (fun p => negb (mem (fst p) labels)) df).
Proof.
  intros Hall. unfold drop.
  destruct (List.find _ labels) as [c |] eqn:E; [| reflexivity].
  apply List.find_some in E as [Hin Hc].
  apply Hall, mem_In in Hin. now rewrite Hin in Hc.
Qed.

Lemma getitem_filter (f : string -> bool) (df : DataFrame) (c : string) :
  f c = true ->
  getitem (List.filter (fun p => f (fst p)) df) c = getitem df c.
Proof.
  intros Hc. induction df as [| [n s] df IH]; [reflexivity |].
  cbn [List.filter fst getitem].
  destruct (String.eqb_spec n c) as [-> | Hn].
  - rewrite Hc. cbn [getitem]. now rewrite String.eqb_refl.
  - destruct (f n); [cbn [getitem]; destruct (String.eqb_spec n c); [contradiction |] |];
      exact IH.
Qed.

Lemma columns_filter (f : string -> bool) (df : DataFrame) (c : string) :
  In c (columns (List.filter (fun p => f (fst p)) df))
  <-> In c (columns df) /\ f c = true.
Proof.
  unfold columns. rewrite !in_map_iff. split.
  - intros ([n s] & <- & Hin). apply List.filter_In in Hin as [Hin Hf].
    split; [exists (n, s); now split | exact Hf].
  - intros (([n s] & <- & Hin) & Hf). exists (n, s). split; [reflexivity |].
    apply List.filter_In. now split.
Qed.

Lemma classes_yes_no (labels : list string) :
  Forall (fun v => v = "No" \/ v = "Yes") labels ->
  Sklearn.classes Stdlib.Strings.String.compare labels
  = match existsb (String.eqb "No") labels, existsb (String.eqb "Yes") labels with
    | true, true => ["No"; "Yes"]
    | true, false => ["No"]
    | false, true => ["Yes"]
    | false, false => []
    end.
Proof.
  induction 1 as [| v labels Hv _ IH]; [reflexivity |].
  unfold Sklearn.classes in *. cbn [fold_right existsb]. rewrite IH.
  destruct Hv as [-> | ->];
    destruct (existsb (String.eqb "No") labels), (existsb (String.eqb "Yes") labels);
    reflexivity.
Qed.

(** With both labels in the column, the sorted vocabulary is "No", "Yes":
    "No" is coded 0 and "Yes" is coded 1. *)
Lemma encode_yes_no (labels : list string) :
  Forall (fun v => v = "No" \/ v = "Yes") labels ->
  In "No" labels -> In "Yes" labels ->
  Sklearn.encode Stdlib.Strings.String.compare labels
  = List.map Props.no_is_zero labels.
Proof.
  intros Hb Hno Hyes. unfold Sklearn.encode. rewrite (classes_yes_no labels Hb).
  assert (E1 : existsb (String.eqb "No") labels = true)
    by (apply existsb_exists; exists "No"; split; [exact Hno | reflexivity]).
  assert (E2 : existsb (String.eqb "Yes") labels = true)
    by (apply existsb_exists; exists "Yes"; split; [exact Hyes | reflexivity]).
  rewrite E1, E2. apply List.map_ext_in. intros v Hv.
  rewrite Forall_forall in Hb. specialize (Hb v).
  destruct Hb as [-> | ->]; [ | | ]; try reflexivity.
  now apply list_elem_of_In.
Qed.

Lemma load_Ok (x : string) (k : kernel) (l : positive) (df : DataFrame) :
  vars k !! x = Some l -> heap k !! l = Some df -> load x k = (Ok df, k).
Proof. intros Hv Hh. unfold load. now rewrite Hv, Hh. Qed.

Lemma assign_new_Ok (df : DataFrame) (k : kernel) :
  exists k' l',
    assign_new "newdf" df k = (Ok tt, k')
    /\ vars k' !! "newdf" = Some l' /\ heap k' !! l' = Some df.
Proof.
  unfold assign_new. eexists _, _. split; [reflexivity |].
  cbn [vars heap]. split; apply lookup_insert_eq.
Qed.

(** On a kernel where [newdf] denotes the table [df], the loop of cell 74
    ends normally whenever [recode_all] does, and leaves [newdf] denoting the
    table [recode_all] computes. *)
Lemma for_each_recode_Ok (cs : list string) (k : kernel) (l' : positive)
    (df df' : DataFrame) :
  vars k !! "newdf" = Some l' -> heap k !! l' = Some df ->
  Props.recode_all cs df = Ok df' ->
  exists k',
    for_each cs recode_column k = (Ok tt, k')
    /\ vars k' !! "newdf" = Some l' /\ heap k' !! l' = Some df'.
Proof.
  revert k df. induction cs as [| c cs IH]; intros k df Hv Hh Hrun;
    cbn [Props.recode_all for_each] in *.
  - injection Hrun as <-. now exists k.
  - destruct (getitem df c) as [col |] eqn:Ec; [| discriminate]. cbn in Hrun.
    unfold cbind at 1. unfold recode_column, cbind, lift.
    rewrite (load_Ok "newdf" k l' df Hv Hh), Ec.
    unfold setitem_in_place. rewrite Hv, Hh.
    apply (IH _ (setitem df c (Sklearn.fit_transform col))); cbn [vars heap].
    + exact Hv.
    + apply lookup_insert_eq.
    + exact Hrun.
Qed.

(** C10 (amended): in the full-feature path [Attrition], an object-typed
    column, is among the recoded columns, and the response [newY] the model
    is fitted on is its label-encoded integer column, "No" coded 0 and "Yes"
    coded 1.  That numbering is the reverse of the R script's [recode_y] and
    is the one cell 61 of the notebook reads the thresholded labels with
    (0 is "No", anything else "Yes"). *)
Theorem C10_response_is_label_encoded (k : kernel) (l : positive)
    (empattr : DataFrame) (labels : list string) :
  vars k !! "empattr" = Some l -> heap k !! l = Some empattr ->
  List.NoDup (columns empattr) ->
  getitem empattr "Attrition" = Ok (ObjCol labels) ->
  Forall (fun v => v = "No" \/ v = "Yes") labels ->
  In "No" labels -> In "Yes" labels ->
  (forall c, In c catcols -> In c (columns empattr)) ->
  In "EmployeeCount" (columns empattr) -> In "StandardHours" (columns empattr) ->
  ~ In "EmployeeCount" (objcols empattr) -> ~ In "StandardHours" (objcols empattr) ->
  In "Attrition" (catcols ++ objcols empattr)
  /\ (exists newPreds k',
        full_feature_path k
        = (Ok (newPreds, IntCol (List.map Props.no_is_zero labels)), k')
        /\ ~ In "Attrition" (columns newPreds))
  /\ Props.no_is_zero "No" = 0 /\ Props.no_is_zero "Yes" = 1
  /\ RScript.recode_y (List.map Some labels)
     = List.map (fun v => Some (1 - Props.no_is_zero v)) labels
  /\ predictions_results_recoded (List.map Props.no_is_zero labels) = labels.
Proof.
  intros Hv Hh Hnd Hattr Hbin Hno Hyes Hcat Hec Hsh Hec' Hsh'.
  assert (Hobj : In "Attrition" (objcols empattr)).
  { unfold objcols. apply List.filter_In. split.
    - apply getitem_Ok_iff. eauto.
    - now rewrite Hattr. }
  split; [apply in_app_iff; now right |].
  split.
  { set (dropped := ["EmployeeCount"; "StandardHours"]).
    set (T' := List.filter (fun p => negb (mem (fst p) dropped)) empattr).
    assert (Hdrop : drop empattr dropped = Ok T').
    { apply drop_Ok. intros c [<- | [<- | []]]; assumption. }
    assert (Hkeep : forall c, In c (columns empattr) -> ~ In c dropped ->
                              In c (columns T')).
    { intros c Hc Hd. apply (columns_filter (fun n => negb (mem n dropped))).
      split; [exact Hc |]. destruct (mem c dropped) eqn:E; [| reflexivity].
      apply mem_In in E. contradiction. }
    assert (Hall : forall c, In c (catcols ++ objcols empattr) -> In c (columns T')).
    { intros c Hc. apply in_app_iff in Hc as [Hc | Hc].
      - apply Hkeep; [now apply Hcat |].
        unfold catcols in Hc. cbn in Hc. intros [<- | [<- | []]];
          repeat (destruct Hc as [Hc | Hc]; [discriminate Hc |]); exact Hc.
      - apply Hkeep; [now apply objcols_columns |].
        intros [<- | [<- | []]]; contradiction. }
    destruct (recode_all_Ok _ T' Hall) as (df' & Hrun & Hcols).
    assert (HattrT' : getitem T' "Attrition" = Ok (ObjCol labels)).
    { unfold T'. rewrite (getitem_filter (fun n => negb (mem n dropped)));
        [exact Hattr | reflexivity]. }
    assert (Hcount : count_occ string_dec (catcols ++ objcols empattr) "Attrition" = 1%nat).
    { rewrite count_occ_app.
      assert (Hin : List.NoDup (objcols empattr)) by now apply List.NoDup_filter.
      rewrite (proj1 (List.NoDup_count_occ' string_dec _) Hin _ Hobj).
      reflexivity. }
    assert (HnewY := recode_all_getitem _ _ _ _ _ Hrun HattrT').
    rewrite Hcount in HnewY. cbn [Nat.iter nat_rect Sklearn.fit_transform] in HnewY.
    rewrite (encode_yes_no labels Hbin Hno Hyes) in HnewY.
    unfold full_feature_path, cbind at 1.
    rewrite (load_Ok "empattr" k l empattr Hv Hh).
    unfold encoder, cbind at 1 2. unfold cell72, cbind at 1.
    rewrite (load_Ok "empattr" k l empattr Hv Hh).
    destruct (assign_new_Ok empattr k) as (k1 & l1 & -> & Hv1 & Hh1).
    unfold cbind at 1. unfold cell73, cbind at 1, lift.
    rewrite (load_Ok "newdf" k1 l1 empattr Hv1 Hh1).
    unfold cbind at 1. fold dropped. rewrite Hdrop.
    destruct (assign_new_Ok T' k1) as (k2 & l2 & -> & Hv2 & Hh2).
    unfold cell74.
    destruct (for_each_recode_Ok _ k2 l2 T' df' Hv2 Hh2 Hrun)
      as (k3 & -> & Hv3 & Hh3).
    unfold cell75, cbind, lift.
    rewrite (load_Ok "newdf" k3 l2 df' Hv3 Hh3), HnewY. unfold cret.
    eexists _, _. split; [reflexivity |].
    unfold without. intros Hin.
    apply (columns_filter (fun n => negb (String.eqb n "Attrition"))) in Hin
      as [_ Hin]. discriminate Hin. }
  split; [reflexivity | split; [reflexivity |]].
  split.
  - rewrite recode_y_pointwise, List.map_map. apply List.map_ext_in.
    intros v Hv'. rewrite Forall_forall in Hbin.
    destruct (Hbin v) as [-> | ->]; [now apply list_elem_of_In | |]; reflexivity.
  - unfold predictions_results_recoded. rewrite List.map_map.
    rewrite <- (List.map_id labels) at 2. apply List.map_ext_in.
    intros v Hv'. rewrite Forall_forall in Hbin.
    destruct (Hbin v) as [-> | ->]; [now apply list_elem_of_In | |]; reflexivity.
Qed.

Lemma C10_response_is_label_encoded_witness :
  In "Attrition" (catcols ++ objcols Sample.empattr)
  /\ (exists newPreds k',
        full_feature_path (loaded Sample.empattr)
        = (Ok (newPreds, IntCol [1; 0; 1; 0; 0]), k')
        /\ ~ In "Attrition" (columns newPreds)).
Proof.
  assert (Hw := C10_response_is_label_encoded (loaded Sample.empattr) 1%positive
                  Sample.empattr ["Yes"; "No"; "Yes"; "No"; "No"]).
  destruct Hw as (H1 & H2 & _).
  - reflexivity.
  - reflexivity.
  - apply NoDup_ListNoDup. apply (bool_decide_unpack _). vm_compute. exact I.
  - reflexivity.
  - binary_vector.
  - vm_compute. tauto.
  - vm_compute. tauto.
  - intros c Hc. vm_compute in Hc |- *. tauto.
  - vm_compute. tauto.
  - vm_compute. tauto.
  - vm_compute. intros [H | [H | []]]; discriminate H.
  - vm_compute. intros [H | [H | []]]; discriminate H.
  - split; [exact H1 | exact H2].
Defined.

(** C10, as stated, fails in its last part: the numbering of the encoder is
    not a third one.  Read with the notebook's own decoding of thresholded
    labels (cell 61), the encoded response gives back the [Attrition]
    column. *)
Lemma C10_counterexample :
  exists newPreds k' codes,
    full_feature_path (loaded Sample.empattr) = (Ok (newPreds, IntCol codes), k')
    /\ getitem Sample.empattr "Attrition" = Ok (ObjCol ["Yes"; "No"; "Yes"; "No"; "No"])
    /\ predictions_results_recoded codes = ["Yes"; "No"; "Yes"; "No"; "No"].
Proof.
  eexists _, _, _. split; [vm_compute; reflexivity |].
  split; reflexivity.
Qed.

(** ** More of the R script: the comparison of two label vectors *)

Lemma recycle_length {A} (l : list A) (n : nat) : length (RScript.recycle l n) = n.
Proof. unfold RScript.recycle. now rewrite List.length_map, List.length_seq. Qed.

Lemma map_combine_swap {A B C} (f : A * B -> C) (x : list A) (y : list B) :
  List.map f (combine x y) = List.map (fun p => f (snd p, fst p)) (combine y x).
Proof.
  revert y. induction x as [| a x IH]; intros [| b y]; simpl; try reflexivity.
  now rewrite IH.
Qed.

Lemma num_eq_sym (a b : RScript.rnumeric) : RScript.num_eq a b = RScript.num_eq b a.
Proof. destruct a, b; simpl; try reflexivity. now rewrite Z.eqb_sym. Qed.

Lemma vec_eq_sym (a b : list RScript.rnumeric) : RScript.vec_eq a b = RScript.vec_eq b a.
Proof.
  destruct a as [| x a], b as [| y b]; try reflexivity.
  unfold RScript.vec_eq. rewrite (Nat.max_comm (length (y :: b))).
  rewrite map_combine_swap. apply List.map_ext.
  intros [[u |] [v |]]; cbn [fst snd]; try reflexivity. apply num_eq_sym.
Qed.

(** X1: [compare_lists] does not depend on the order of its two arguments;
    its result is empty as soon as one argument is empty and otherwise as
    long as the longer argument, the shorter one being recycled. *)
Theorem X1_compare_lists_shape (double1 double2 : list RScript.rnumeric) :
  RScript.compare_lists double1 double2 = RScript.compare_lists double2 double1
  /\ length (RScript.compare_lists double1 double2)
     = match double1, double2 with
       | [], _ | _, [] => 0%nat
       | _, _ => Nat.max (length double1) (length double2)
       end.
Proof.
  split.
  - unfold RScript.compare_lists. now rewrite vec_eq_sym.
  - unfold RScript.compare_lists. rewrite List.length_map.
    destruct double1 as [| x a], double2 as [| y b]; try reflexivity.
    unfold RScript.vec_eq.
    rewrite List.length_map, List.length_combine, !recycle_length.
    apply Nat.min_id.
Qed.

Lemma rsum_check_pairs (a b : list RScript.rnumeric) :
  is_Some (RScript.rsum
             (List.map (fun x => RScript.ifelse1 x 1 0)
                (List.map (fun p => RScript.num_eq (fst p) (snd p)) (combine a b))))
  <-> Forall (fun p => is_Some (fst p) /\ is_Some (snd p)) (combine a b).
Proof.
  revert b. induction a as [| x a IH]; intros [| y b]; cbn [combine List.map RScript.rsum];
    try (split; [intros _; constructor | intros _; now eexists]).
  cbn [fst snd]. rewrite Forall_cons. cbn [fst snd]. rewrite <- IH.
  destruct x as [u |], y as [v |]; cbn [RScript.num_eq RScript.ifelse1].
  - destruct (Z.eqb u v), (RScript.rsum _); split;
      try (intros [? ?]; discriminate); try (intros (_ & [? ?]); discriminate);
      try (intros _; repeat split; now eexists); intros _; now eexists.
  - split; [intros [? ?]; discriminate | intros ((_ & [? ?]) & _); discriminate].
  - split; [intros [? ?]; discriminate | intros (([? ?] & _) & _); discriminate].
  - split; [intros [? ?]; discriminate | intros (([? ?] & _) & _); discriminate].
Qed.

(** X2: on two vectors of one length, the accuracy [sum(tempor)/length(tempor)]
    is a number exactly when the vectors are not empty and hold no [NA]: a
    single [NA] prediction or label makes the whole result [NA]. *)
Theorem X2_accuracy_is_NA_on_any_NA (double1 double2 : list RScript.rnumeric) :
  length double1 = length double2 ->
  (is_Some (RScript.mean_of (RScript.compare_lists double1 double2))
   <-> double1 <> [] /\ Forall is_Some double1 /\ Forall is_Some double2).
Proof.
  intros Hlen.
  assert (Hn := compare_lists_length double1 double2 Hlen).
  assert (Hpairs : Forall (fun p => is_Some (fst p) /\ is_Some (snd p))
                     (combine double1 double2)
                   <-> Forall is_Some double1 /\ Forall is_Some double2).
  { clear Hn. revert double2 Hlen.
    induction double1 as [| x a IH]; intros [| y b] Hlen; try discriminate Hlen.
    - split; [intros _; split; constructor | intros _; constructor].
    - cbn [combine]. rewrite !Forall_cons. cbn [fst snd].
      rewrite (IH b) by (simpl in Hlen; lia). tauto. }
  rewrite <- Hpairs, <- rsum_check_pairs.
  unfold RScript.mean_of, RScript.compare_lists in *.
  rewrite vec_eq_same_length in * by exact Hlen.
  destruct double1 as [| x a].
  - simpl. split; [intros [? ?]; discriminate | intros [? _]; congruence].
  - destruct (List.map _ (List.map _ (combine (x :: a) double2))) as [| c cs] eqn:E;
      [simpl in Hn; lia |].
    destruct (RScript.rsum (c :: cs)).
    + split; [intros _; split; [discriminate | now eexists] | intros _; now eexists].
    + split; [intros [? ?]; discriminate | intros [_ [? ?]]; discriminate].
Qed.

Lemma X2_accuracy_is_NA_on_any_NA_witness :
  is_Some (RScript.mean_of (RScript.compare_lists [Some 1; Some 0] [Some 1; Some 1]))
  /\ RScript.mean_of (RScript.compare_lists [Some 1; None] [Some 1; Some 1]) = None.
Proof.
  split.
  - apply (X2_accuracy_is_NA_on_any_NA [Some 1; Some 0] [Some 1; Some 1] eq_refl).
    split; [discriminate |]. split; repeat constructor; now eexists.
  - reflexivity.
Defined.

Lemma rsum_compare_numbers (u v : list Z) :
  length u = length v ->
  RScript.rsum (RScript.compare_lists (List.map Some u) (List.map Some v))
  = Some (Props.agreements u v).
Proof.
  intros Hlen. unfold RScript.compare_lists.
  rewrite vec_eq_same_length by (rewrite !List.length_map; exact Hlen).
  clear Hlen. revert v. induction u as [| a u IH]; intros [| b v]; try reflexivity.
  cbn [List.map combine RScript.rsum fst snd Props.agreements].
  rewrite IH. unfold RScript.num_eq, RScript.ifelse1.
  destruct (Z.eqb_spec a b), (decide (a = b)); try congruence; reflexivity.
Qed.

Lemma agreements_bounds {L} `{EqDecision L} (u v : list L) :
  0 <= Props.agreements u v <= Z.of_nat (length u).
Proof.
  revert v. induction u as [| a u IH]; intros [| b v]; cbn [Props.agreements length];
    try lia.
  specialize (IH v). destruct (decide (a = b)); lia.
Qed.

Lemma agreements_all {L} `{EqDecision L} (u v : list L) :
  length u = length v ->
  (Props.agreements u v = Z.of_nat (length u) <-> u = v).
Proof.
  revert v. induction u as [| a u IH]; intros [| b v] Hlen; try discriminate Hlen.
  - split; reflexivity.
  - cbn [Props.agreements length]. simpl in Hlen.
    assert (Hb := agreements_bounds u v).
    destruct (decide (a = b)) as [-> | Hne].
    + rewrite Nat2Z.inj_succ. split.
      * intros E. f_equal. apply IH; lia.
      * intros [= ->]. assert (Props.agreements v v = Z.of_nat (length v))
          by now apply IH. lia.
    + split; [lia | congruence].
Qed.

(** X3: for predictions and labels without [NA] and of one length [N], the
    sum of [compare_lists] is the number of positions where they agree; it
    lies between 0 and [N] and reaches [N] exactly when the two vectors are
    equal. *)
Theorem X3_compare_lists_counts_agreements (u v : list Z) :
  length u = length v ->
  RScript.rsum (RScript.compare_lists (List.map Some u) (List.map Some v))
  = Some (Props.agreements u v)
  /\ 0 <= Props.agreements u v <= Z.of_nat (length u)
  /\ (Props.agreements u v = Z.of_nat (length u) <-> u = v).
Proof.
  intros Hlen. split; [now apply rsum_compare_numbers |].
  split; [apply agreements_bounds | now apply agreements_all].
Qed.

Lemma X3_compare_lists_counts_agreements_witness :
  RScript.rsum (RScript.compare_lists [Some 1; Some 0; Some 1] [Some 1; Some 1; Some 1])
  = Some 2.
Proof.
  apply (X3_compare_lists_counts_agreements [1; 0; 1] [1; 1; 1] eq_refl).
Defined.

Lemma recode_y_labels (labels : list string) :
  RScript.recode_y (List.map Some labels)
  = List.map (fun a => Some (if String.eqb a "No" then 1 else 0)) labels.
Proof.
  rewrite recode_y_pointwise, List.map_map. apply List.map_ext.
  intros a. cbn. now destruct (String.eqb a "No").
Qed.

Lemma recoded_fitted_numbers (results : list float) :
  Forall (fun p => PrimFloat.is_nan p = false) results ->
  RScript.recoded_fitted results
  = List.map (fun p => Some (if PrimFloat.ltb 0.5%float p then 1 else 0)) results.
Proof.
  intros Hn. unfold RScript.recoded_fitted. apply List.map_ext_in.
  intros p Hp. rewrite Forall_forall in Hn.
  apply assign_label_number; [apply Hn; now apply list_elem_of_In | reflexivity].
Qed.

(** X4: the R script scores an employee as predicted right exactly when
    the fitted value is above 0.5 and [Attrition] is "No", or the fitted
    value is not above 0.5 and [Attrition] is anything else: on fitted values
    that are numbers and labels that are not [NA], of one length, [tempor]
    holds 1 at those employees and 0 at the others. *)
Theorem X4_tempor_scores (results : list float) (labels : list string) :
  length results = length labels ->
  Forall (fun p => PrimFloat.is_nan p = false) results ->
  RScript.tempor results (List.map Some labels)
  = List.map (fun pa => Some (if Props.scored_right (fst pa) (snd pa) then 1 else 0))
             (combine results labels).
Proof.
  intros Hlen Hn. unfold RScript.tempor, RScript.compare_lists.
  rewrite recode_y_labels, (recoded_fitted_numbers results Hn).
  rewrite vec_eq_same_length by (rewrite !List.length_map; exact Hlen).
  clear Hlen Hn. revert labels.
  induction results as [| p ps IH]; intros [| a az]; try reflexivity.
  cbn [List.map combine fst snd]. rewrite IH. f_equal.
  unfold Props.scored_right.
  destruct (PrimFloat.ltb 0.5%float p), (String.eqb a "No"); reflexivity.
Qed.

Lemma X4_tempor_scores_witness :
  RScript.tempor [0.25%float; 0.75%float; 0.75%float] [Some "Yes"; Some "No"; Some "Yes"]
  = [Some 1; Some 1; Some 0].
Proof.
  apply (X4_tempor_scores [0.25%float; 0.75%float; 0.75%float] ["Yes"; "No"; "Yes"] eq_refl).
  repeat constructor.
Defined.

(** ** More of the notebook: labels from probabilities *)

Lemma SFcompare_refl (x : spec_float) :
  x <> S754_nan -> SFcompare x x = Some Eq.
Proof.
  destruct x as [s | s | | s m e]; intros Hx; try congruence; cbn.
  - reflexivity.
  - now destruct s.
  - rewrite Z.compare_refl, Pos.compare_cont_refl. now destruct s.
Qed.

Lemma SFcompare_nan_r (x : spec_float) : SFcompare x S754_nan = None.
Proof. now destruct x. Qed.

(** A comparison with NaN on its right is false. *)
Lemma ltb_nan_r (t p : float) : PrimFloat.is_nan p = true -> PrimFloat.ltb t p = false.
Proof.
  unfold PrimFloat.is_nan. rewrite FloatAxioms.eqb_spec, FloatAxioms.ltb_spec. intros Hp.
  assert (Hnan : Prim2SF p = S754_nan).
  { destruct (Prim2SF p) eqn:E; try reflexivity; exfalso;
      unfold SFeqb in Hp; rewrite SFcompare_refl in Hp by discriminate;
      discriminate Hp. }
  unfold SFltb. now rewrite Hnan, SFcompare_nan_r.
Qed.

(** X5: through cells 58 and 61 a predicted probability becomes the label
    "No" when it is above the threshold and "Yes" in every other case, NaN
    included; on a NaN the R script's [assign_label] gives [NA] where the
    notebook gives the code 1, read "Yes". *)
Theorem X5_threshold_then_label :
  (forall ps : list float,
     Notebook.predictions_results_recoded (Notebook.predictions_results ps)
     = List.map (fun p => if PrimFloat.ltb Notebook.th p then "No" else "Yes") ps)
  /\ (forall p : float,
        PrimFloat.is_nan p = true ->
        Notebook.predictions_results [p] = [1]
        /\ Notebook.predictions_results_recoded (Notebook.predictions_results [p]) = ["Yes"]
        /\ RScript.recoded_fitted [p] = [None]).
Proof.
  split.
  - intros ps. unfold Notebook.predictions_results_recoded, Notebook.predictions_results.
    rewrite List.map_map. apply List.map_ext. intros p.
    unfold Notebook.recode_probability. now destruct (PrimFloat.ltb Notebook.th p).
  - intros p Hp.
    assert (Hlt := ltb_nan_r Notebook.th p Hp).
    cbn [Notebook.predictions_results Notebook.predictions_results_recoded List.map].
    unfold Notebook.recode_probability. rewrite Hlt.
    repeat split.
    cbn [RScript.recoded_fitted List.map]. unfold RScript.assign_label, RScript.dbl_gt.
    now rewrite Hp.
Qed.

Example nan_is_labelled_yes :
  Notebook.predictions_results_recoded (Notebook.predictions_results [PrimFloat.nan])
  = ["Yes"].
Proof. reflexivity. Qed.

(** ** Calls of [plot_figure] that draw nothing *)

(** X14: [plot_figure] returns without drawing and without an exception
    exactly when [fig_type] is [None], the empty string or a name other than
    "hist", "boxplot" and "barh"; in that case it does not even look the
    column up, so the column may be missing. *)
Theorem X14_plot_figure_silent (tibble : Pandas.DataFrame) (colname : string)
    (xlab ylab fig_type response_var : option string) :
  Notebook.plot_figure tibble colname xlab ylab fig_type response_var = Ok []
  <-> fig_type <> Some "hist" /\ fig_type <> Some "boxplot" /\ fig_type <> Some "barh".
Proof.
  unfold Notebook.plot_figure. destruct fig_type as [ft |];
    [| split; [intros _; repeat split; discriminate | reflexivity]].
  destruct (String.eqb_spec ft "") as [-> | Hempty];
    [split; [intros _; repeat split; discriminate | reflexivity] |].
  destruct (String.eqb_spec ft "hist") as [-> | Hhist].
  { split; [| intros [H _]; now destruct H].
    destruct (Pandas.getitem tibble colname); discriminate. }
  destruct (String.eqb_spec ft "boxplot") as [-> | Hbox].
  { split; [| intros (_ & H & _); now destruct H].
    unfold Notebook.plot_hist. destruct response_var as [r |]; [| discriminate].
    destruct (Pandas.getitem tibble colname) as [[v | v] |]; [| | discriminate];
      cbn; destruct (Pandas.getitem tibble r); discriminate. }
  destruct (String.eqb_spec ft "barh") as [-> | Hbar].
  { split; [| intros (_ & _ & H); now destruct H].
    destruct (Pandas.getitem tibble colname) as [col |]; [| discriminate].
    cbn. destruct (Notebook.plot_barchart colname col); discriminate. }
  split; [intros _; repeat split; congruence | reflexivity].
Qed.

Example plot_figure_misspelt :
  Notebook.plot_figure Sample.empattr "NoSuchColumn" None None (Some "Hist") None = Ok [].
Proof. reflexivity. Qed.

Example boxplot_needs_response_var :
  Notebook.plot_figure Sample.empattr "Age" None None (Some "boxplot") None
  = Raise (KeyError "None").
Proof. reflexivity. Qed.

(** ** Bar charts *)

Section CounterFacts.
Context {A : Type} `{EqDecision A}.

Lemma counter_add_keys_old (x : A) (c : list (A * nat)) :
  In x (List.map fst c) ->
  List.map fst (Notebook.counter_add x c) = List.map fst c.
Proof.
  induction c as [| [y n] c IH]; cbn [Notebook.counter_add List.map fst]; [intros [] |].
  intros Hin. destruct (decide (x = y)) as [-> | Hne]; cbn [List.map fst];
    [reflexivity |].
  f_equal. apply IH. destruct Hin as [-> | Hin]; [now destruct Hne | exact Hin].
Qed.

Lemma counter_add_keys_new (x : A) (c : list (A * nat)) :
  ~ In x (List.map fst c) ->
  List.map fst (Notebook.counter_add x c) = (List.map fst c ++ [x])%list.
Proof.
  induction c as [| [y n] c IH]; cbn [Notebook.counter_add List.map fst];
    [reflexivity |].
  intros Hn. destruct (decide (x = y)) as [-> | Hne]; cbn [List.map fst].
  - exfalso. apply Hn. now left.
  - cbn [app]. f_equal. apply IH. intros Hin. apply Hn. now right.
Qed.

Lemma occurrences_app (x : A) (l1 l2 : list A) :
  Props.occurrences x (l1 ++ l2) = (Props.occurrences x l1 + Props.occurrences x l2)%nat.
Proof.
  induction l1 as [| y l1 IH]; cbn [app Props.occurrences]; [reflexivity |].
  rewrite IH. lia.
Qed.

Lemma counter_add_In (x : A) (c : list (A * nat)) (y : A) (m : nat) :
  List.NoDup (List.map fst c) ->
  (In (y, m) (Notebook.counter_add x c)
   <-> (y <> x /\ In (y, m) c)
       \/ (y = x /\ ((~ In x (List.map fst c) /\ m = 1%nat)
                     \/ exists n, In (x, n) c /\ m = S n))).
Proof.
  induction c as [| [z n] c IH]; intros Hnd; cbn [Notebook.counter_add List.map fst].
  - split.
    + intros [[= <- <-] | []]. right. split; [reflexivity |]. left. split; [intros [] | reflexivity].
    + intros [[_ []] | [-> [[_ ->] | (n & [] & _)]]]. now left.
  - inversion Hnd as [| ? ? Hz Hnd']; subst. specialize (IH Hnd').
    destruct (decide (x = z)) as [-> | Hne].
    + split.
      * intros [[= <- <-] | Hin].
        -- right. split; [reflexivity |]. right. exists n. split; [now left | reflexivity].
        -- left. split; [| now right]. intros ->. apply Hz.
           apply in_map_iff. now exists (z, m).
      * intros [[Hy [[= -> ->] | Hin]] | [-> [[Hn _] | (n' & [[= ->] | Hin] & ->)]]].
        -- congruence.
        -- now right.
        -- exfalso. apply Hn. now left.
        -- now left.
        -- exfalso. apply Hz. apply in_map_iff. now exists (z, n').
    + split.
      * intros [[= <- <-] | Hin].
        -- left. split; [congruence | now left].
        -- apply IH in Hin as [[Hy Hin] | [-> [[Hn ->] | (n' & Hin & ->)]]].
           ++ left. split; [exact Hy | now right].
           ++ right. split; [reflexivity |]. left. split; [| reflexivity].
              intros [-> | Hin]; [now apply Hne | now apply Hn].
           ++ right. split; [reflexivity |]. right. exists n'. split; [now right | reflexivity].
      * intros [[Hy [[= -> ->] | Hin]] | [-> [[Hn ->] | (n' & [[= -> ->] | Hin] & ->)]]].
        -- now left.
        -- right. apply IH. left. now split.
        -- right. apply IH. right. split; [reflexivity |]. left. split; [| reflexivity].
           intros Hin. apply Hn. now right.
        -- now destruct Hne.
        -- right. apply IH. right. split; [reflexivity |]. right. now exists n'.
Qed.

Lemma counted_add (x : A) (c : list (A * nat)) (l : list A) :
  Props.counted c l -> Props.counted (Notebook.counter_add x c) (l ++ [x]).
Proof.
  intros [Hnd Hc]. split.
  - destruct (in_dec (fun a b => decide (a = b)) x (List.map fst c)) as [Hin | Hn].
    + now rewrite counter_add_keys_old.
    + rewrite counter_add_keys_new by exact Hn.
      apply List.NoDup_app; [exact Hnd | repeat constructor; intros [] |].
      intros y Hy [<- | []]. now apply Hn.
  - intros y m. rewrite (counter_add_In x c y m Hnd), occurrences_app.
    cbn [Props.occurrences].
    assert (Hkey : In x (List.map fst c) <-> (0 < Props.occurrences x l)%nat).
    { split.
      - intros ([x' n] & <- & Hin)%in_map_iff. apply Hc in Hin as [-> ?]. assumption.
      - intros Hpos. apply in_map_iff. exists (x, Props.occurrences x l).
        split; [reflexivity |]. apply Hc. now split. }
    destruct (decide (x = y)) as [-> | Hne].
    + split.
      * intros [[Hy _] | [_ [[Hn ->] | (n & Hin & ->)]]]; [congruence | |].
        -- rewrite Hkey in Hn. split; lia.
        -- apply Hc in Hin as [-> ?]. split; lia.
      * intros [-> _]. right. split; [reflexivity |].
        destruct (Nat.eq_dec (Props.occurrences y l) 0%nat) as [E | E].
        -- left. rewrite Hkey. split; lia.
        -- right. exists (Props.occurrences y l). split; [| lia].
           apply Hc. split; lia.
    + split.
      * intros [[_ Hin] | [-> _]]; [| congruence].
        apply Hc in Hin as [-> ?]. split; lia.
      * intros [-> Hpos]. left. split; [congruence |]. apply Hc. split; lia.
Qed.

Lemma counted_fold (l l0 : list A) (c : list (A * nat)) :
  Props.counted c l0 ->
  Props.counted (fold_left (fun c x => Notebook.counter_add x c) l c) (l0 ++ l).
Proof.
  revert l0 c. induction l as [| x l IH]; intros l0 c Hc; cbn [fold_left].
  - now rewrite List.app_nil_r.
  - replace (l0 ++ x :: l)%list with ((l0 ++ [x]) ++ l)%list
      by now rewrite <- List.app_assoc.
    apply IH. now apply counted_add.
Qed.

Lemma Counter_counted (l : list A) : Props.counted (Notebook.Counter l) l.
Proof.
  apply (counted_fold l [] []). split; [constructor |].
  intros x n. split; [intros [] | intros [-> H]; cbn in H; lia].
Qed.

Lemma counter_add_total (x : A) (c : list (A * nat)) :
  list_sum (List.map snd (Notebook.counter_add x c)) = S (list_sum (List.map snd c)).
Proof.
  induction c as [| [y n] c IH]; cbn [Notebook.counter_add List.map snd list_sum fold_right];
    [reflexivity |].
  destruct (decide (x = y)); cbn [List.map snd list_sum fold_right].
  - reflexivity.
  - unfold list_sum in IH. rewrite IH. lia.
Qed.

Lemma Counter_total (l : list A) :
  list_sum (List.map snd (Notebook.Counter l)) = length l.
Proof.
  unfold Notebook.Counter.
  assert (H : forall c, list_sum (List.map snd (fold_left (fun c x => Notebook.counter_add x c) l c))
                        = (list_sum (List.map snd c) + length l)%nat).
  { induction l as [| x l IH]; intros c; cbn [fold_left length]; [lia |].
    rewrite IH, counter_add_total. lia. }
  now rewrite H.
Qed.
End CounterFacts.

Lemma occurrences_pos {A} `{EqDecision A} (x : A) (l : list A) :
  (0 < Props.occurrences x l)%nat <-> In x l.
Proof.
  induction l as [| y l IH]; cbn [Props.occurrences In]; [lia |].
  destruct (decide (y = x)) as [-> | Hne].
  - split; [now left | lia].
  - rewrite <- IH. split; [intros ?; right; lia | intros [? | ?]; [contradiction | lia]].
Qed.

Lemma filter_filter_and {A} (P Q : A -> bool) (l : list A) :
  List.filter P (List.filter Q l) = List.filter (fun x => P x && Q x) l.
Proof.
  induction l as [| x l IH]; [reflexivity |].
  cbn [List.filter]. destruct (Q x) eqn:EQ; cbn [List.filter];
    destruct (P x); cbn; now rewrite IH.
Qed.

Lemma first_seen_filter {A} `{EqDecision A} (P : A -> bool) (l : list A) :
  List.filter P (Props.first_seen l) = Props.first_seen (List.filter P l).
Proof.
  induction l as [| y l IH]; [reflexivity |].
  cbn [Props.first_seen List.filter]. destruct (P y) eqn:Py.
  - cbn [Props.first_seen]. f_equal. rewrite <- IH, !filter_filter_and.
    apply List.filter_ext. intros z. apply andb_comm.
  - rewrite <- IH, filter_filter_and. apply List.filter_ext. intros z.
    destruct (bool_decide (z = y)) eqn:E; cbn.
    + apply bool_decide_eq_true in E. subst. now rewrite Py.
    + apply andb_true_r.
Qed.

Section CounterOrder.
Context {A : Type} `{EqDecision A}.

(** The keys of a counter are met in the order the elements are first
    seen. *)
Lemma Counter_keys_fold (l : list A) (c : list (A * nat)) :
  List.map fst (fold_left (fun c x => Notebook.counter_add x c) l c)
  = (List.map fst c
     ++ Props.first_seen
          (List.filter (fun x => negb (bool_decide (x ∈ List.map fst c))) l))%list.
Proof.
  revert c. induction l as [| x l IH]; intros c; cbn [fold_left List.filter].
  - now rewrite List.app_nil_r.
  - rewrite IH. destruct (bool_decide (x ∈ List.map fst c)) eqn:E; cbn [negb].
    + apply bool_decide_eq_true, list_elem_of_In in E.
      now rewrite counter_add_keys_old.
    + apply bool_decide_eq_false in E. rewrite list_elem_of_In in E.
      rewrite counter_add_keys_new by exact E.
      rewrite <- List.app_assoc. cbn [app Props.first_seen]. do 2 f_equal.
      rewrite first_seen_filter, filter_filter_and. f_equal.
      apply List.filter_ext. intros z.
      destruct (bool_decide (z = x)) eqn:Ez; cbn.
      * apply bool_decide_eq_true in Ez. subst z.
        rewrite bool_decide_eq_true_2; [reflexivity |].
        apply list_elem_of_In, in_app_iff. right. now left.
      * apply bool_decide_eq_false in Ez.
        destruct (bool_decide (z ∈ List.map fst c)) eqn:Ec.
        -- apply bool_decide_eq_true, list_elem_of_In in Ec.
           rewrite bool_decide_eq_true_2; [reflexivity |].
           apply list_elem_of_In, in_app_iff. now left.
        -- apply bool_decide_eq_false in Ec. rewrite list_elem_of_In in Ec.
           rewrite bool_decide_eq_false_2; [reflexivity |].
           rewrite list_elem_of_In.
           intros [Hin | [-> | []]]%in_app_iff; [now apply Ec | now apply Ez].
Qed.

Lemma Counter_keys (l : list A) :
  List.map fst (Notebook.Counter l) = Props.first_seen l.
Proof.
  unfold Notebook.Counter. rewrite Counter_keys_fold. cbn [List.map app].
  f_equal. rewrite <- (List.filter_ext (fun _ => true)).
  - induction l as [| x l IH]; cbn [List.filter]; [reflexivity | now rewrite IH].
  - intros x. rewrite bool_decide_eq_false_2; [reflexivity | apply not_elem_of_nil].
Qed.

Lemma Counter_nil (l : list A) : Notebook.Counter l = [] <-> l = [].
Proof.
  split; [| now intros ->].
  intros E. assert (H := Counter_total l). rewrite E in H. cbn in H.
  destruct l; [reflexivity | discriminate H].
Qed.
End CounterOrder.

Example first_seen_sample :
  Props.first_seen ["b"; "a"; "b"; "c"; "a"] = ["b"; "a"; "c"]
  /\ List.map fst (Notebook.Counter ["b"; "a"; "b"; "c"; "a"]) = ["b"; "a"; "c"].
Proof. split; reflexivity. Qed.

(** X6: on a column with rows, the bar chart has one bar for each distinct
    value of the column, in the order the values first appear; the height
    of a bar is the number of rows holding its value, so the heights add up
    to the number of rows.  On a column without rows [plot_barchart] stops
    with [IndexError]. *)
Theorem X6_barchart_counts (name : string) (series_col : Pandas.Series) :
  (Notebook.values_of series_col = [] ->
   Notebook.plot_barchart name series_col = Raise IndexError)
  /\ (Notebook.values_of series_col <> [] ->
      exists labels heights,
        Notebook.plot_barchart name series_col = Ok (Notebook.Bar name labels heights)
        /\ labels = Props.first_seen (Notebook.values_of series_col)
        /\ length labels = length heights
        /\ List.NoDup labels
        /\ (forall x, In x labels <-> In x (Notebook.values_of series_col))
        /\ (forall i x, nth_error labels i = Some x ->
              nth_error heights i
              = Some (Props.occurrences x (Notebook.values_of series_col)))
        /\ list_sum heights = length (Notebook.values_of series_col)).
Proof.
  unfold Notebook.plot_barchart. split.
  - now intros ->.
  - intros Hrows.
    destruct (Counter_counted (Notebook.values_of series_col)) as [Hnd Hc].
    assert (Hkeys := Counter_keys (Notebook.values_of series_col)).
    assert (Htot := Counter_total (Notebook.values_of series_col)).
    assert (Hne : Notebook.Counter (Notebook.values_of series_col) <> [])
      by (intros E; apply Hrows; now apply (proj1 (Counter_nil _))).
    generalize dependent (Notebook.Counter (Notebook.values_of series_col)).
    intros c Hnd Hc Hkeys Htot Hne.
    exists (List.map fst c), (List.map snd c).
    split; [destruct c; [congruence | reflexivity] |].
    split; [exact Hkeys |].
    split; [now rewrite !List.length_map |].
    split; [exact Hnd |].
    split.
    { intros x. rewrite <- (occurrences_pos x (Notebook.values_of series_col)). split.
      - intros ([x' n] & <- & Hin)%in_map_iff. apply Hc in Hin as [-> ?]. assumption.
      - intros Hpos. apply in_map_iff.
        exists (x, Props.occurrences x (Notebook.values_of series_col)).
        split; [reflexivity |]. apply Hc. now split. }
    split; [| exact Htot].
    intros i x Hi. rewrite List.nth_error_map in Hi |- *.
    destruct (nth_error c i) as [[x' n] |] eqn:E; [| discriminate].
    cbn in Hi |- *. injection Hi as ->.
    apply List.nth_error_In, Hc in E as [-> _]. reflexivity.
Qed.

Example barchart_sample :
  Notebook.plot_barchart "Attrition" (Pandas.ObjCol ["Yes"; "No"; "Yes"; "No"; "No"])
  = Ok (Notebook.Bar "Attrition" [Notebook.VStr "Yes"; Notebook.VStr "No"] [2; 3]%nat)
  /\ Notebook.plot_barchart "Attrition" (Pandas.ObjCol []) = Raise IndexError.
Proof. split; reflexivity. Qed.

Lemma plot_barchart_drawn (c : string) (col : Pandas.Series) :
  Notebook.values_of col <> [] ->
  exists p, Notebook.plot_barchart c col = Ok p.
Proof.
  intros Hrows. unfold Notebook.plot_barchart.
  destruct (Notebook.Counter (Notebook.values_of col)) eqn:E;
    [apply (proj1 (Counter_nil _)) in E; contradiction | now eexists].
Qed.

Lemma barchart_call (empattr : Pandas.DataFrame) (c : string) :
  Notebook.plot_figure empattr c (Some c) None (Some "barh") None
  = match Pandas.getitem empattr c with
    | Ok col =>
        match Notebook.plot_barchart c col with
        | Ok p => Ok [p]
        | Raise e => Raise e
        end
    | Raise e => Raise e
    end.
Proof.
  unfold Notebook.plot_figure. cbn.
  destruct (Pandas.getitem empattr c) as [col |]; [| reflexivity].
  cbn. now destruct (Notebook.plot_barchart c col).
Qed.

Lemma charts_cons (empattr : Pandas.DataFrame) (c : string) (cs : list string)
    (col : Pandas.Series) (p : Notebook.plot) :
  Pandas.getitem empattr c = Ok col -> Notebook.plot_barchart c col = Ok p ->
  Props.charts empattr (c :: cs) = p :: Props.charts empattr cs.
Proof.
  intros Hc Hp. unfold Props.charts. cbn [omap list_omap]. now rewrite Hc, Hp.
Qed.

Lemma barcharts_present (empattr : Pandas.DataFrame) (cs : list string) :
  (forall c, In c cs -> Props.drawable empattr c) ->
  Notebook.barcharts empattr cs = (Props.charts empattr cs, Ok tt)
  /\ length (Props.charts empattr cs) = length cs.
Proof.
  induction cs as [| c cs IH]; intros Hall; [now split |].
  destruct IH as [IH1 IH2]; [intros x Hx; apply Hall; now right |].
  destruct (Hall c (or_introl eq_refl)) as (col & Hs & Hrows).
  destruct (plot_barchart_drawn c col Hrows) as [p Hp].
  cbn [Notebook.barcharts].
  rewrite barchart_call, Hs, Hp, IH1, (charts_cons _ _ _ _ _ Hs Hp).
  split; [reflexivity |]. cbn [length]. now rewrite IH2.
Qed.

Lemma barcharts_stop (empattr : Pandas.DataFrame) (pre post : list string) (c : string)
    (e : exn) :
  (forall x, In x pre -> Props.drawable empattr x) ->
  Notebook.plot_figure empattr c (Some c) None (Some "barh") None = Raise e ->
  Notebook.barcharts empattr (pre ++ c :: post) = (Props.charts empattr pre, Raise e).
Proof.
  intros Hpre Hc. induction pre as [| x pre IH].
  - cbn [app Notebook.barcharts]. now rewrite Hc.
  - destruct (Hpre x (or_introl eq_refl)) as (col & Hs & Hrows).
    destruct (plot_barchart_drawn x col Hrows) as [p Hp].
    cbn [app Notebook.barcharts]. rewrite barchart_call, Hs, Hp.
    rewrite IH by (intros y Hy; apply Hpre; now right).
    now rewrite (charts_cons _ _ _ _ _ Hs Hp).
Qed.

(** X7: cell 22 shows one bar chart for each of [Attrition], [Gender] and
    [PerformanceRating], in that order, when the table has the three
    columns and they have rows.  Otherwise it stops at the first of them
    that is missing, with [KeyError], or that has no rows, with
    [IndexError], after the charts of the ones before it have been shown. *)
Theorem X7_cell22_barcharts (empattr : Pandas.DataFrame) :
  ((forall c, In c Notebook.printcols -> Props.drawable empattr c) ->
   Notebook.cell22 empattr = (Props.charts empattr Notebook.printcols, Ok tt)
   /\ length (Props.charts empattr Notebook.printcols) = 3%nat)
  /\ (forall pre c post,
        Notebook.printcols = (pre ++ c :: post)%list ->
        (forall x, In x pre -> Props.drawable empattr x) ->
        ~ In c (Pandas.columns empattr) ->
        Notebook.cell22 empattr = (Props.charts empattr pre, Raise (KeyError c)))
  /\ (forall pre c post col,
        Notebook.printcols = (pre ++ c :: post)%list ->
        (forall x, In x pre -> Props.drawable empattr x) ->
        Pandas.getitem empattr c = Ok col -> Notebook.values_of col = [] ->
        Notebook.cell22 empattr = (Props.charts empattr pre, Raise IndexError)).
Proof.
  split; [| split].
  - intros Hall. now apply barcharts_present.
  - intros pre c post E Hpre Hc. unfold Notebook.cell22. rewrite E.
    apply barcharts_stop; [exact Hpre |]. rewrite barchart_call.
    destruct (Pandas.getitem empattr c) as [s |] eqn:Es.
    + exfalso. apply Hc. apply getitem_Ok_iff. now exists s.
    + apply getitem_Raise in Es as [-> _]. reflexivity.
  - intros pre c post col E Hpre Hc Hrows. unfold Notebook.cell22. rewrite E.
    apply barcharts_stop; [exact Hpre |]. rewrite barchart_call, Hc.
    unfold Notebook.plot_barchart. now rewrite Hrows.
Qed.

Example cell22_sample :
  Notebook.cell22 Sample.empattr
  = ([Notebook.Bar "Attrition" [Notebook.VStr "Yes"; Notebook.VStr "No"] [2; 3]%nat;
      Notebook.Bar "Gender" [Notebook.VStr "Female"; Notebook.VStr "Male"] [2; 3]%nat;
      Notebook.Bar "PerformanceRating" [Notebook.VInt 3; Notebook.VInt 4] [4; 1]%nat],
     Ok tt).
Proof. reflexivity. Qed.

Example cell22_without_gender :
  Notebook.cell22 (Pandas.without Sample.empattr "Gender")
  = ([Notebook.Bar "Attrition" [Notebook.VStr "Yes"; Notebook.VStr "No"] [2; 3]%nat],
     Raise (KeyError "Gender")).
Proof. reflexivity. Qed.

Example cell22_without_rows :
  Notebook.cell22 [ ("Attrition", Pandas.ObjCol []); ("Gender", Pandas.ObjCol []);
                    ("PerformanceRating", Pandas.IntCol []) ]
  = ([], Raise IndexError).
Proof. reflexivity. Qed.

(** ** The table the correlations are taken of *)

Lemma drop_Raise (df : Pandas.DataFrame) (labels : list string) (e : exn) :
  Pandas.drop df labels = Raise e ->
  exists c, e = KeyError c /\ In c labels /\ ~ In c (Pandas.columns df).
Proof.
  unfold Pandas.drop. destruct (List.find _ labels) as [c |] eqn:E; [| discriminate].
  intros [= <-]. apply List.find_some in E as [Hin Hc].
  exists c. repeat split; [exact Hin |].
  intros Hcol. apply mem_In in Hcol. now rewrite Hcol in Hc.
Qed.

Lemma drop_Ok_inv (df t : Pandas.DataFrame) (labels : list string) :
  Pandas.drop df labels = Ok t ->
  (forall c, In c labels -> In c (Pandas.columns df))
  /\ t = List.filter (fun p => negb (Pandas.mem (fst p) labels)) df.
Proof.
  unfold Pandas.drop. destruct (List.find _ labels) as [c |] eqn:E; [discriminate |].
  intros [= <-]. split; [| reflexivity].
  intros c Hc. apply (List.find_none _ _ E) in Hc.
  apply mem_In. now destruct (Pandas.mem c (Pandas.columns df)).
Qed.

Lemma getitem_of_member (df : Pandas.DataFrame) (n : string) (s : Pandas.Series) :
  List.NoDup (Pandas.columns df) -> In (n, s) df -> Pandas.getitem df n = Ok s.
Proof.
  induction df as [| [m s'] df IH]; intros Hnd Hin; [destruct Hin |].
  cbn [Pandas.columns List.map fst] in Hnd. inversion Hnd as [| ? ? Hm Hnd']; subst.
  cbn [Pandas.getitem]. destruct Hin as [[= -> ->] | Hin].
  - now rewrite String.eqb_refl.
  - destruct (String.eqb_spec m n) as [-> | Hne]; [| now apply IH].
    exfalso. apply Hm. apply in_map_iff. now exists (n, s).
Qed.

Lemma objcols_In (df : Pandas.DataFrame) (c : string) :
  In c (Notebook.objcols df)
  <-> exists s, Pandas.getitem df c = Ok s /\ Pandas.is_object s = true.
Proof.
  unfold Notebook.objcols. rewrite List.filter_In. split.
  - intros [Hc Ho]. destruct (Pandas.getitem df c) as [s |]; [| discriminate].
    now exists s.
  - intros (s & Hs & Ho). split; [apply getitem_Ok_iff; now exists s | now rewrite Hs].
Qed.

(** X8: cell 32 takes the correlations of the table left after dropping
    [EmployeeCount], [StandardHours], the object-typed and the
    declared-categorical columns.  The drop ends normally exactly when the
    two constant columns and every declared-categorical column are in the
    table; what is left is the numerical columns of cell 23 other than the
    two constants, each an integer column equal to the loaded one. *)
Theorem X8_correlation_input (empattr : Pandas.DataFrame) :
  List.NoDup (Pandas.columns empattr) ->
  ((exists t, Notebook.corr_input empattr = Ok t)
   <-> In "EmployeeCount" (Pandas.columns empattr)
       /\ In "StandardHours" (Pandas.columns empattr)
       /\ (forall c, In c Notebook.catcols -> In c (Pandas.columns empattr)))
  /\ (forall t, Notebook.corr_input empattr = Ok t ->
        (forall c, In c (Pandas.columns t)
                   <-> c ∈ Notebook.numerical_set empattr (Notebook.objcols empattr)
                             Notebook.catcols
                       /\ c <> "EmployeeCount" /\ c <> "StandardHours")
        /\ Props.all_int64 t
        /\ (forall c, In c (Pandas.columns t) ->
                      Pandas.getitem t c = Pandas.getitem empattr c))
  /\ (forall e, Notebook.corr_input empattr = Raise e ->
        exists c, e = KeyError c /\ ~ In c (Pandas.columns empattr)).
Proof.
  intros Hnd. unfold Notebook.corr_input.
  set (labels := Notebook.ignore_cols (Notebook.objcols empattr)).
  assert (Hlab : forall c, In c labels
                           <-> c = "EmployeeCount" \/ c = "StandardHours"
                               \/ In c (Notebook.objcols empattr)
                               \/ In c Notebook.catcols).
  { intros c. unfold labels, Notebook.ignore_cols.
    rewrite !in_app_iff. cbn [In]. intuition congruence. }
  split; [| split].
  - split.
    + intros [t Ht]. apply drop_Ok_inv in Ht as [Hall _].
      repeat split; [| | intros c Hc]; apply Hall, Hlab; tauto.
    + intros (H1 & H2 & H3). eexists. apply drop_Ok. intros c Hc.
      apply Hlab in Hc as [-> | [-> | [Hc | Hc]]];
        [assumption | assumption | now apply objcols_columns | now apply H3].
  - intros t Ht. apply drop_Ok_inv in Ht as [_ ->].
    assert (Hcols : forall c, In c (Pandas.columns
                       (List.filter (fun p => negb (Pandas.mem (fst p) labels)) empattr))
                    <-> In c (Pandas.columns empattr) /\ ~ In c labels).
    { intros c. rewrite (columns_filter (fun n => negb (Pandas.mem n labels))).
      rewrite <- (mem_In c labels). destruct (Pandas.mem c labels); cbn; intuition congruence. }
    split; [| split].
    + intros c. rewrite Hcols, numerical_set_In, Hlab. tauto.
    + apply Forall_forall. intros [n s] Hin%list_elem_of_In.
      apply List.filter_In in Hin as [Hin Hk]. cbn [fst snd] in *.
      destruct (Pandas.is_object s) eqn:Ho; [| reflexivity].
      exfalso. assert (Hl : In n labels).
      { apply Hlab. right. right. left. apply objcols_In. exists s.
        split; [now apply getitem_of_member | exact Ho]. }
      apply mem_In in Hl. now rewrite Hl in Hk.
    + intros c Hc. apply Hcols in Hc as [_ Hc].
      apply (getitem_filter (fun n => negb (Pandas.mem n labels))).
      destruct (Pandas.mem c labels) eqn:E; [| reflexivity].
      apply mem_In in E. contradiction.
  - intros e He. apply drop_Raise in He as (c & -> & _ & Hc). now exists c.
Qed.

Lemma X8_correlation_input_witness :
  (exists t, Notebook.corr_input Sample.empattr = Ok t)
  /\ Notebook.corr_input Sample.empattr
     = Ok [ ("Age", Pandas.IntCol [41; 49; 37; 33; 27]);
            ("DistanceFromHome", Pandas.IntCol [1; 8; 2; 3; 2]);
            ("YearsSinceLastPromotion", Pandas.IntCol [0; 1; 0; 3; 2]) ].
Proof.
  split; [| reflexivity].
  apply (X8_correlation_input Sample.empattr).
  - apply NoDup_ListNoDup. apply (bool_decide_unpack _). vm_compute. exact I.
  - repeat split; [vm_compute; tauto | vm_compute; tauto |].
    intros c Hc. vm_compute in Hc |- *. tauto.
Defined.

(** ** When the encoder stops, and what it leaves *)

Lemma recode_all_Ok_inv (cs : list string) (df df' : Pandas.DataFrame) :
  Props.recode_all cs df = Ok df' ->
  (forall c, In c cs -> In c (Pandas.columns df))
  /\ Pandas.columns df' = Pandas.columns df.
Proof.
  revert df. induction cs as [| c cs IH]; intros df Hrun; cbn [Props.recode_all] in Hrun.
  - injection Hrun as <-. split; [intros c [] | reflexivity].
  - destruct (Pandas.getitem df c) as [col |] eqn:Ec; [| discriminate]. cbn in Hrun.
    assert (Hc : In c (Pandas.columns df)) by (apply getitem_Ok_iff; now exists col).
    destruct (IH _ Hrun) as [Hall Hcols].
    rewrite (columns_setitem df c _ Hc) in Hall, Hcols.
    split; [| exact Hcols]. intros x [<- | Hx]; [exact Hc | now apply Hall].
Qed.

Lemma recode_all_Raise (cs : list string) (df : Pandas.DataFrame) (e : exn) :
  Props.recode_all cs df = Raise e ->
  exists c, e = KeyError c /\ In c cs /\ ~ In c (Pandas.columns df).
Proof.
  revert df. induction cs as [| c cs IH]; intros df Hrun; cbn [Props.recode_all] in Hrun;
    [discriminate |].
  destruct (Pandas.getitem df c) as [col |] eqn:Ec; cbn in Hrun.
  - assert (Hc : In c (Pandas.columns df)) by (apply getitem_Ok_iff; now exists col).
    destruct (IH _ Hrun) as (x & -> & Hx & Hn).
    rewrite (columns_setitem df c _ Hc) in Hn.
    exists x. repeat split; [now right | exact Hn].
  - injection Hrun as <-. apply getitem_Raise in Ec as [-> Hn].
    exists c. repeat split; [now left | exact Hn].
Qed.

(** The loop of cell 74 ends as [recode_all] does. *)
Lemma for_each_recode_outcome (cs : list string) (k : Notebook.kernel) (l' : positive)
    (df : Pandas.DataFrame) :
  Notebook.vars k !! "newdf" = Some l' -> Notebook.heap k !! l' = Some df ->
  fst (Notebook.for_each cs Notebook.recode_column k)
  = match Props.recode_all cs df with
    | Ok _ => Ok tt
    | Raise e => Raise e
    end.
Proof.
  revert k df. induction cs as [| c cs IH]; intros k df Hv Hh;
    cbn [Props.recode_all Notebook.for_each]; [reflexivity |].
  unfold Notebook.cbind at 1. unfold Notebook.recode_column, Notebook.cbind, Notebook.lift.
  rewrite (load_Ok "newdf" k l' df Hv Hh).
  destruct (Pandas.getitem df c) as [col |] eqn:Ec; cbn; [| reflexivity].
  unfold Notebook.setitem_in_place. rewrite Hv, Hh.
  apply (IH _ (Pandas.setitem df c (Sklearn.fit_transform col))); cbn [Notebook.vars Notebook.heap].
  - exact Hv.
  - apply lookup_insert_eq.
Qed.

Lemma assign_new_beside (l : positive) (T df : Pandas.DataFrame) (k : Notebook.kernel) :
  Props.keeps l T k ->
  exists k' l',
    Notebook.assign_new "newdf" df k = (Ok tt, k')
    /\ Notebook.vars k' !! "newdf" = Some l' /\ Notebook.heap k' !! l' = Some df
    /\ l' <> l /\ Props.keeps l T k'.
Proof.
  intros Hk. destruct (assign_new_keeps l T df k Hk) as [Hk' _].
  destruct Hk as [Hv Hh]. unfold Notebook.assign_new in *. cbn [snd] in Hk'.
  eexists _, _. split; [reflexivity |]. cbn [Notebook.vars Notebook.heap].
  split; [apply lookup_insert_eq |]. split; [apply lookup_insert_eq |].
  split; [| exact Hk'].
  intros E. apply (is_fresh (dom (Notebook.heap k))). rewrite E.
  apply elem_of_dom. now exists T.
Qed.

(** The encoder on a kernel where [empattr] denotes [T]: its outcome is
    that of the drop followed by the loop, and when both end normally
    [newdf] denotes, beside the loaded table, the table they compute. *)
Lemma encoder_outcome (objs : list string) (k : Notebook.kernel) (l : positive)
    (T : Pandas.DataFrame) :
  Props.keeps l T k ->
  match Pandas.drop T ["EmployeeCount"; "StandardHours"] with
  | Raise e => fst (Notebook.encoder objs k) = Raise e
  | Ok T' =>
      match Props.recode_all (Notebook.catcols ++ objs) T' with
      | Raise e => fst (Notebook.encoder objs k) = Raise e
      | Ok df' =>
          exists k' l',
            Notebook.encoder objs k = (Ok tt, k')
            /\ Notebook.vars k' !! "newdf" = Some l'
            /\ Notebook.heap k' !! l' = Some df'
            /\ l' <> l
      end
  end.
Proof.
  intros Hk. assert (Hk0 := Hk). destruct Hk0 as [Hv Hh].
  destruct (assign_new_beside l T T k Hk) as (k1 & l1 & E1 & Hv1 & Hh1 & _ & Hk1).
  assert (Hrun : Notebook.encoder objs k
                 = Notebook.cbind Notebook.cell73 (fun _ => Notebook.cell74 objs) k1).
  { unfold Notebook.encoder. unfold Notebook.cbind at 1. unfold Notebook.cell72.
    unfold Notebook.cbind at 1. now rewrite (load_Ok "empattr" k l T Hv Hh), E1. }
  rewrite Hrun. clear Hrun.
  assert (H73 : Notebook.cell73 k1
                = match Pandas.drop T ["EmployeeCount"; "StandardHours"] with
                  | Ok T' => Notebook.assign_new "newdf" T' k1
                  | Raise e => (Raise e, k1)
                  end).
  { unfold Notebook.cell73, Notebook.cbind, Notebook.lift.
    rewrite (load_Ok "newdf" k1 l1 T Hv1 Hh1).
    now destruct (Pandas.drop T ["EmployeeCount"; "StandardHours"]). }
  destruct (Pandas.drop T ["EmployeeCount"; "StandardHours"]) as [T' | e];
    [| unfold Notebook.cbind at 1; now rewrite H73].
  destruct (assign_new_beside l T T' k1 Hk1) as (k2 & l2 & E2 & Hv2 & Hh2 & Hne & Hk2).
  rewrite E2 in H73.
  assert (Hout := for_each_recode_outcome (Notebook.catcols ++ objs) k2 l2 T' Hv2 Hh2).
  destruct (Props.recode_all (Notebook.catcols ++ objs) T') as [df' | e] eqn:Erun.
  - destruct (for_each_recode_Ok _ k2 l2 T' df' Hv2 Hh2 Erun) as (k3 & E3 & Hv3 & Hh3).
    exists k3, l2. unfold Notebook.cbind at 1. rewrite H73. unfold Notebook.cell74.
    rewrite E3. repeat split; assumption.
  - unfold Notebook.cbind at 1. rewrite H73. exact Hout.
Qed.

Lemma columns_of_filter (f : string -> bool) (df : Pandas.DataFrame) :
  Pandas.columns (List.filter (fun p => f (fst p)) df)
  = List.filter f (Pandas.columns df).
Proof.
  unfold Pandas.columns. induction df as [| [n s] df IH]; [reflexivity |].
  cbn [List.filter List.map fst]. destruct (f n); cbn [List.map fst]; now rewrite IH.
Qed.

Lemma catcols_not_dropped (c : string) :
  In c Notebook.catcols -> ~ In c ["EmployeeCount"; "StandardHours"].
Proof.
  unfold Notebook.catcols. cbn [In]. intros Hc [<- | [<- | []]];
    repeat (destruct Hc as [Hc | Hc]; [discriminate Hc |]); exact Hc.
Qed.

(** X9: on a kernel where [empattr] denotes the loaded table, cells 72 to 74
    end normally exactly when the table has [EmployeeCount], [StandardHours]
    and every declared-categorical column, and neither of the two dropped
    columns is object-typed; in every other case they stop with a
    [KeyError], never with another exception. *)
Theorem X9_encoder_ends_normally_iff (k : Notebook.kernel) (l : positive)
    (empattr : Pandas.DataFrame) :
  Notebook.vars k !! "empattr" = Some l -> Notebook.heap k !! l = Some empattr ->
  (fst (Notebook.encoder (Notebook.objcols empattr) k) = Ok tt
   <-> In "EmployeeCount" (Pandas.columns empattr)
       /\ In "StandardHours" (Pandas.columns empattr)
       /\ (forall c, In c Notebook.catcols -> In c (Pandas.columns empattr))
       /\ ~ In "EmployeeCount" (Notebook.objcols empattr)
       /\ ~ In "StandardHours" (Notebook.objcols empattr))
  /\ (forall e, fst (Notebook.encoder (Notebook.objcols empattr) k) = Raise e ->
        exists c, e = KeyError c).
Proof.
  intros Hv Hh. assert (Hk : Props.keeps l empattr k) by now split.
  assert (Hout := encoder_outcome (Notebook.objcols empattr) k l empattr Hk).
  set (dropped := ["EmployeeCount"; "StandardHours"]) in *.
  destruct (Pandas.drop empattr dropped) as [T' | e0] eqn:Ed.
  - apply drop_Ok_inv in Ed as [Hpresent ->].
    set (T' := List.filter (fun p => negb (Pandas.mem (fst p) dropped)) empattr) in *.
    assert (HT' : forall c, In c (Pandas.columns T')
                            <-> In c (Pandas.columns empattr) /\ ~ In c dropped).
    { intros c. unfold T'. rewrite (columns_filter (fun n => negb (Pandas.mem n dropped))).
      rewrite <- (mem_In c dropped).
      destruct (Pandas.mem c dropped); cbn; intuition congruence. }
    destruct (Props.recode_all (Notebook.catcols ++ Notebook.objcols empattr) T')
      as [df' | e1] eqn:Erun.
    + destruct Hout as (k' & l' & -> & _). cbn [fst].
      apply recode_all_Ok_inv in Erun as [Hall _].
      split; [| intros e [=]].
      split; [intros _ | reflexivity].
      repeat split.
      * apply Hpresent. now left.
      * apply Hpresent. right. now left.
      * intros c Hc. apply (HT' c), Hall, in_app_iff. now left.
      * intros Ho. assert (Hin : In "EmployeeCount" (Pandas.columns T'))
          by (apply Hall, in_app_iff; now right).
        apply HT' in Hin as [_ Hin]. apply Hin. now left.
      * intros Ho. assert (Hin : In "StandardHours" (Pandas.columns T'))
          by (apply Hall, in_app_iff; now right).
        apply HT' in Hin as [_ Hin]. apply Hin. right. now left.
    + rewrite Hout. split; [| intros e [= <-]].
      * split; [discriminate |]. intros (_ & _ & Hcat & Hec & Hsh). exfalso.
        apply recode_all_Raise in Erun as (c & _ & Hc & Hn). apply Hn, HT'.
        apply in_app_iff in Hc as [Hc | Hc].
        -- split; [now apply Hcat | now apply catcols_not_dropped].
        -- split; [now apply objcols_columns |].
           intros [<- | [<- | []]]; contradiction.
      * apply recode_all_Raise in Erun as (c & -> & _). now exists c.
  - rewrite Hout. split; [| intros e [= <-]].
    + split; [discriminate |]. intros (Hec & Hsh & _). exfalso.
      apply drop_Raise in Ed as (c & _ & [<- | [<- | []]] & Hn); contradiction.
    + apply drop_Raise in Ed as (c & -> & _). now exists c.
Qed.

Lemma X9_encoder_ends_normally_iff_witness :
  fst (Notebook.encoder (Notebook.objcols Sample.empattr) (Notebook.loaded Sample.empattr))
  = Ok tt
  /\ fst (Notebook.encoder
            (Notebook.objcols (Pandas.without Sample.empattr "Education"))
            (Notebook.loaded (Pandas.without Sample.empattr "Education")))
     = Raise (KeyError "Education").
Proof.
  split; [| vm_compute; reflexivity].
  apply (X9_encoder_ends_normally_iff (Notebook.loaded Sample.empattr) 1%positive
           Sample.empattr eq_refl eq_refl).
  split; [vm_compute; tauto |]. split; [vm_compute; tauto |].
  split; [intros c Hc; vm_compute in Hc |- *; tauto |].
  split; vm_compute; intros [H | [H | []]]; discriminate H.
Defined.

Lemma fit_transform_int64 (col : Pandas.Series) :
  Pandas.is_object (Sklearn.fit_transform col) = false.
Proof. now destruct col. Qed.

Lemma iter_fit_transform_object (n : nat) (col : Pandas.Series) :
  Pandas.is_object (Nat.iter n Sklearn.fit_transform col) = true ->
  n = 0%nat /\ Pandas.is_object col = true.
Proof.
  destruct n as [| n]; cbn [Nat.iter nat_rect]; [now split |].
  now rewrite fit_transform_int64.
Qed.

(** X10: when cells 72 to 74 end normally on a table with distinct column
    names, [newdf] denotes an object other than the loaded table; it has the
    columns of the loaded table without [EmployeeCount] and [StandardHours],
    in the same order; none of its columns is object-typed any more; and a
    column that is neither declared categorical nor object-typed is the
    loaded column, unchanged. *)
Theorem X10_encoder_result (k k' : Notebook.kernel) (l : positive)
    (empattr : Pandas.DataFrame) :
  Notebook.vars k !! "empattr" = Some l -> Notebook.heap k !! l = Some empattr ->
  List.NoDup (Pandas.columns empattr) ->
  Notebook.encoder (Notebook.objcols empattr) k = (Ok tt, k') ->
  exists l' newdf,
    Notebook.vars k' !! "newdf" = Some l' /\ l' <> l
    /\ Notebook.heap k' !! l' = Some newdf
    /\ Pandas.columns newdf
       = List.filter (fun c => negb (Pandas.mem c ["EmployeeCount"; "StandardHours"]))
                     (Pandas.columns empattr)
    /\ Props.all_int64 newdf
    /\ Notebook.objcols newdf = []
    /\ (forall c, In c (Pandas.columns newdf) ->
                  ~ In c (Notebook.catcols ++ Notebook.objcols empattr) ->
                  Pandas.getitem newdf c = Pandas.getitem empattr c).
Proof.
  intros Hv Hh Hnd Hrun. assert (Hk : Props.keeps l empattr k) by now split.
  assert (Hout := encoder_outcome (Notebook.objcols empattr) k l empattr Hk).
  set (dropped := ["EmployeeCount"; "StandardHours"]) in *.
  set (cs := (Notebook.catcols ++ Notebook.objcols empattr)%list) in *.
  destruct (Pandas.drop empattr dropped) as [T' | e0] eqn:Ed;
    [| rewrite Hrun in Hout; discriminate Hout].
  apply drop_Ok_inv in Ed as [_ ET'].
  destruct (Props.recode_all cs T') as [df' | e1] eqn:Erun;
    [| rewrite Hrun in Hout; discriminate Hout].
  destruct Hout as (k2 & l' & E & Hv' & Hh' & Hne).
  rewrite Hrun in E. injection E as <-.
  exists l', df'. split; [exact Hv' |]. split; [exact Hne |]. split; [exact Hh' |].
  destruct (recode_all_Ok_inv _ _ _ Erun) as [_ Hcols].
  assert (HcolsT : Pandas.columns T'
                   = List.filter (fun c => negb (Pandas.mem c dropped))
                       (Pandas.columns empattr)).
  { rewrite ET'. apply (columns_of_filter (fun c => negb (Pandas.mem c dropped))). }
  assert (Hget : forall c, In c (Pandas.columns df') ->
                 exists col0 m, Pandas.getitem empattr c = Ok col0
                   /\ Pandas.getitem df' c = Ok (Nat.iter m Sklearn.fit_transform col0)
                   /\ (m = 0%nat <-> ~ In c cs)).
  { intros c Hc. rewrite Hcols in Hc.
    destruct (proj2 (getitem_Ok_iff T' c) Hc) as [col0 Hc0].
    exists col0, (count_occ string_dec cs c).
    split; [| split; [now apply (recode_all_getitem cs T' df' c col0) |]].
    - rewrite <- Hc0, ET'. symmetry.
      apply (getitem_filter (fun n => negb (Pandas.mem n dropped))).
      rewrite HcolsT in Hc. now apply List.filter_In in Hc.
    - symmetry. apply count_occ_not_In. }
  assert (Hnd' : List.NoDup (Pandas.columns df')).
  { rewrite Hcols, HcolsT. now apply List.NoDup_filter. }
  assert (Hint : Props.all_int64 df').
  { apply Forall_forall. intros [n s] Hin%list_elem_of_In. cbn [snd].
    assert (Hs := getitem_of_member df' n s Hnd' Hin).
    destruct (Hget n) as (col0 & m & H0 & H1 & Hm).
    { apply in_map_iff. now exists (n, s). }
    rewrite Hs in H1. injection H1 as ->.
    destruct (Pandas.is_object (Nat.iter m Sklearn.fit_transform col0)) eqn:Ho;
      [| reflexivity].
    apply iter_fit_transform_object in Ho as [Hzero Ho].
    exfalso. apply (proj1 Hm Hzero).
    unfold cs. apply in_app_iff. right. apply objcols_In. now exists col0. }
  split; [now rewrite Hcols, HcolsT |]. split; [exact Hint |]. split.
  - unfold Notebook.objcols.
    destruct (List.filter _ (Pandas.columns df')) as [| c rest] eqn:E; [reflexivity |].
    exfalso. assert (Hc : In c (c :: rest)) by now left.
    rewrite <- E in Hc. apply List.filter_In in Hc as [Hc Ho].
    destruct (Pandas.getitem df' c) as [s |] eqn:Es; [| discriminate].
    assert (Hin : In (c, s) df').
    { apply in_map_iff in Hc as ([n s'] & <- & Hin). cbn [fst] in Es.
      now rewrite (getitem_of_member df' n s' Hnd' Hin) in Es; injection Es as <-. }
    unfold Props.all_int64 in Hint. rewrite Forall_forall in Hint.
    apply list_elem_of_In, Hint in Hin. cbn [snd] in Hin. congruence.
  - intros c Hc Hn. destruct (Hget c Hc) as (col0 & m & H0 & H1 & Hm).
    rewrite H1, H0. now rewrite (proj2 Hm Hn).
Qed.

Lemma X10_encoder_result_witness :
  exists l' newdf,
    Notebook.vars (snd (Notebook.encoder (Notebook.objcols Sample.empattr)
                          (Notebook.loaded Sample.empattr))) !! "newdf" = Some l'
    /\ l' <> 1%positive
    /\ Notebook.heap (snd (Notebook.encoder (Notebook.objcols Sample.empattr)
                             (Notebook.loaded Sample.empattr))) !! l' = Some newdf
    /\ Props.all_int64 newdf
    /\ Notebook.objcols newdf = [].
Proof.
  destruct (X10_encoder_result (Notebook.loaded Sample.empattr)
              (snd (Notebook.encoder (Notebook.objcols Sample.empattr)
                      (Notebook.loaded Sample.empattr)))
              1%positive Sample.empattr eq_refl eq_refl)
    as (l' & newdf & H1 & H2 & H3 & _ & H5 & H6 & _).
  - apply NoDup_ListNoDup. apply (bool_decide_unpack _). vm_compute. exact I.
  - vm_compute. reflexivity.
  - exists l', newdf. repeat split; assumption.
Defined.

(** ** The codes of the label encoder *)

Section EncodeFacts.
Context {A : Type} (cmp : A -> A -> comparison).
Hypothesis cmp_eq : forall x y, cmp x y = Eq <-> x = y.

Lemma insert_uniq_In (x z : A) (l : list A) :
  In z (Sklearn.insert_uniq cmp x l) <-> z = x \/ In z l.
Proof.
  induction l as [| y l IH]; cbn [Sklearn.insert_uniq In]; [intuition congruence |].
  destruct (cmp x y) eqn:E; cbn [In].
  - apply cmp_eq in E. subst. intuition congruence.
  - intuition congruence.
  - rewrite IH. intuition congruence.
Qed.

Lemma insert_uniq_length (x : A) (l : list A) :
  (length (Sklearn.insert_uniq cmp x l) <= S (length l))%nat.
Proof.
  induction l as [| y l IH]; cbn [Sklearn.insert_uniq length]; [lia |].
  destruct (cmp x y); cbn [length]; lia.
Qed.

Lemma classes_In (x : A) (vals : list A) :
  In x (Sklearn.classes cmp vals) <-> In x vals.
Proof.
  unfold Sklearn.classes. induction vals as [| v vals IH]; cbn [fold_right In];
    [reflexivity |].
  rewrite insert_uniq_In, IH. intuition congruence.
Qed.

Lemma classes_length (vals : list A) :
  (length (Sklearn.classes cmp vals) <= length vals)%nat.
Proof.
  unfold Sklearn.classes. induction vals as [| v vals IH]; cbn [fold_right length];
    [lia |].
  pose proof (insert_uniq_length v (fold_right (Sklearn.insert_uniq cmp) [] vals)). lia.
Qed.

Lemma index_of_nth (x : A) (l : list A) :
  In x l ->
  0 <= Sklearn.index_of cmp x l < Z.of_nat (length l)
  /\ nth_error l (Z.to_nat (Sklearn.index_of cmp x l)) = Some x.
Proof.
  induction l as [| y l IH]; intros Hin; [destruct Hin |].
  cbn [Sklearn.index_of length]. rewrite Nat2Z.inj_succ.
  destruct (cmp x y) eqn:E.
  - apply cmp_eq in E. subst. split; [lia | reflexivity].
  - assert (Hl : In x l).
    { destruct Hin as [<- | Hl]; [| exact Hl].
      rewrite (proj2 (cmp_eq y y) eq_refl) in E. discriminate E. }
    destruct (IH Hl) as [Hb Hn]. split; [lia |].
    replace (Z.to_nat (1 + Sklearn.index_of cmp x l))
      with (S (Z.to_nat (Sklearn.index_of cmp x l))) by lia.
    exact Hn.
  - assert (Hl : In x l).
    { destruct Hin as [<- | Hl]; [| exact Hl].
      rewrite (proj2 (cmp_eq y y) eq_refl) in E. discriminate E. }
    destruct (IH Hl) as [Hb Hn]. split; [lia |].
    replace (Z.to_nat (1 + Sklearn.index_of cmp x l))
      with (S (Z.to_nat (Sklearn.index_of cmp x l))) by lia.
    exact Hn.
Qed.

(** The codes tell the values apart, and lie below the number of rows. *)
Lemma encode_lossless (vals : list A) :
  length (Sklearn.encode cmp vals) = length vals
  /\ (forall i j x y ci cj,
        nth_error vals i = Some x -> nth_error vals j = Some y ->
        nth_error (Sklearn.encode cmp vals) i = Some ci ->
        nth_error (Sklearn.encode cmp vals) j = Some cj ->
        (ci = cj <-> x = y))
  /\ Forall (fun c => 0 <= c < Z.of_nat (length vals)) (Sklearn.encode cmp vals).
Proof.
  unfold Sklearn.encode. split; [apply List.length_map |]. split.
  - intros i j x y ci cj Hx Hy Hi Hj.
    rewrite List.nth_error_map, Hx in Hi. rewrite List.nth_error_map, Hy in Hj.
    cbn in Hi, Hj. injection Hi as <-. injection Hj as <-.
    split; [| now intros ->].
    intros E.
    destruct (index_of_nth x (Sklearn.classes cmp vals)) as [_ Nx];
      [apply classes_In; eapply List.nth_error_In; eassumption |].
    destruct (index_of_nth y (Sklearn.classes cmp vals)) as [_ Ny];
      [apply classes_In; eapply List.nth_error_In; eassumption |].
    rewrite E in Nx. congruence.
  - apply Forall_forall. intros c Hc%list_elem_of_In.
    apply in_map_iff in Hc as (x & <- & Hx).
    destruct (index_of_nth x (Sklearn.classes cmp vals)) as [Hb _];
      [now apply classes_In |].
    pose proof (classes_length vals). lia.
Qed.
End EncodeFacts.

Lemma string_compare_eq (x y : string) :
  Stdlib.Strings.String.compare x y = Eq <-> x = y.
Proof.
  split; [apply Stdlib.Strings.String.compare_eq_iff |].
  intros ->. assert (H := Stdlib.Strings.String.compare_antisym y y).
  destruct (Stdlib.Strings.String.compare y y); cbn in H; congruence.
Qed.

(** X13: the integer column the encoder puts in place of a column is as
    long as the column; two rows get the same code exactly when they held
    the same value, so the recoding loses nothing; and every code is at
    least 0 and below the number of rows. *)
Theorem X13_fit_transform_lossless (col : Pandas.Series) :
  exists codes,
    Sklearn.fit_transform col = Pandas.IntCol codes
    /\ length codes = length (Notebook.values_of col)
    /\ (forall i j x y ci cj,
          nth_error (Notebook.values_of col) i = Some x ->
          nth_error (Notebook.values_of col) j = Some y ->
          nth_error codes i = Some ci -> nth_error codes j = Some cj ->
          (ci = cj <-> x = y))
    /\ Forall (fun c => 0 <= c < Z.of_nat (length codes)) codes.
Proof.
  destruct col as [v | v]; cbn [Sklearn.fit_transform Notebook.values_of];
    eexists; (split; [reflexivity |]).
  - destruct (encode_lossless Z.compare Z.compare_eq_iff v) as (Hl & Hinj & Hb).
    split; [now rewrite List.length_map |]. split.
    + intros i j x y ci cj Hx Hy Hi Hj.
      rewrite List.nth_error_map in Hx, Hy.
      destruct (nth_error v i) as [a |] eqn:Ea; [| discriminate].
      destruct (nth_error v j) as [b |] eqn:Eb; [| discriminate].
      cbn in Hx, Hy. injection Hx as <-. injection Hy as <-.
      rewrite (Hinj i j a b ci cj Ea Eb Hi Hj). split; congruence.
    + now rewrite Hl.
  - destruct (encode_lossless Stdlib.Strings.String.compare string_compare_eq v)
      as (Hl & Hinj & Hb).
    split; [now rewrite List.length_map |]. split.
    + intros i j x y ci cj Hx Hy Hi Hj.
      rewrite List.nth_error_map in Hx, Hy.
      destruct (nth_error v i) as [a |] eqn:Ea; [| discriminate].
      destruct (nth_error v j) as [b |] eqn:Eb; [| discriminate].
      cbn in Hx, Hy. injection Hx as <-. injection Hy as <-.
      rewrite (Hinj i j a b ci cj Ea Eb Hi Hj). split; congruence.
    + now rewrite Hl.
Qed.

(** ** The accuracy of cells 81 and 82 *)

Lemma preds_same_length (predicted ytest : list Z) :
  length predicted = length ytest ->
  Notebook.preds predicted ytest
  = inr (List.map (fun py => Z.eqb (fst py) (snd py)) (combine predicted ytest)).
Proof.
  revert ytest. induction predicted as [| p ps IH]; intros [| y ys] Hlen;
    try discriminate Hlen; [reflexivity |].
  cbn [Notebook.preds combine List.map fst snd].
  now rewrite IH by (simpl in Hlen; lia).
Qed.

Lemma preds_other_length (predicted ytest : list Z) :
  length predicted <> length ytest ->
  Notebook.preds predicted ytest = inl Notebook.ValueError.
Proof.
  revert ytest. induction predicted as [| p ps IH]; intros [| y ys] Hlen;
    cbn [Notebook.preds]; try reflexivity; [now destruct Hlen |].
  now rewrite IH by (simpl in Hlen; lia).
Qed.

Lemma sum_recodedpreds (predicted ytest : list Z) :
  fold_right Z.add 0
    (Notebook.recodedpreds
       (List.map (fun py => Z.eqb (fst py) (snd py)) (combine predicted ytest)))
  = Props.agreements predicted ytest.
Proof.
  revert ytest. induction predicted as [| p ps IH]; intros [| y ys]; try reflexivity.
  cbn [combine List.map Notebook.recodedpreds fold_right fst snd Props.agreements].
  unfold Notebook.recodedpreds in IH. rewrite IH.
  destruct (Z.eqb_spec p y), (decide (p = y)); try congruence; reflexivity.
Qed.

(** X11: cells 81 and 82 return the number of test rows where the predicted
    and the actual code agree, divided by the number of test rows; they stop
    with [ZeroDivisionError] on an empty test set and with [ValueError] when
    the two vectors differ in length.  On vectors of one positive length the
    result is the number the R script computes with [compare_lists]. *)
Theorem X11_test_accuracy (predicted ytest : list Z) :
  (length predicted <> length ytest ->
   Notebook.test_accuracy predicted ytest = inl Notebook.ValueError)
  /\ (predicted = [] -> ytest = [] ->
      Notebook.test_accuracy predicted ytest = inl Notebook.ZeroDivisionError)
  /\ (length predicted = length ytest -> predicted <> [] ->
      Notebook.test_accuracy predicted ytest
      = inr (ratio (Props.agreements predicted ytest) (Z.of_nat (length ytest)))
      /\ RScript.mean_of (RScript.compare_lists (List.map Some predicted)
                                               (List.map Some ytest))
         = Some (ratio (Props.agreements predicted ytest) (Z.of_nat (length ytest)))).
Proof.
  split; [| split].
  - intros Hlen. unfold Notebook.test_accuracy. now rewrite preds_other_length.
  - intros -> ->. reflexivity.
  - intros Hlen Hne. split.
    + unfold Notebook.test_accuracy. rewrite preds_same_length by exact Hlen.
      unfold Notebook.score.
      destruct (Notebook.recodedpreds _) as [| r rs] eqn:E.
      * destruct predicted as [| p ps]; [congruence |].
        destruct ytest; [discriminate Hlen | discriminate E].
      * rewrite <- E, sum_recodedpreds. unfold Notebook.recodedpreds.
        now rewrite !List.length_map, List.length_combine, Hlen, Nat.min_id.
    + assert (Hl : length (List.map Some predicted) = length (List.map Some ytest))
        by (rewrite !List.length_map; exact Hlen).
      assert (Hn := compare_lists_length _ _ Hl). rewrite List.length_map in Hn.
      unfold RScript.mean_of. rewrite rsum_compare_numbers by exact Hlen.
      destruct (RScript.compare_lists _ _) as [| c cs] eqn:E.
      * destruct predicted; [congruence | discriminate Hn].
      * now rewrite Hn, Hlen.
Qed.

Example test_accuracy_sample :
  Notebook.test_accuracy [1; 0; 1; 1] [1; 1; 1; 0] = inr 0.5%float
  /\ Notebook.test_accuracy [] [] = inl Notebook.ZeroDivisionError
  /\ Notebook.test_accuracy [1] [] = inl Notebook.ValueError.
Proof. repeat split. Qed.

(** ** Predictors merged back with their response (cells 43 and 44) *)

Lemma nth_error_indexed {A} (rows : list A) (a i : nat) :
  nth_error (combine (seq a (length rows)) rows) i
  = option_map (pair (a + i)%nat) (nth_error rows i).
Proof.
  revert a i. induction rows as [| r rows IH]; intros a [| i]; cbn; try reflexivity.
  - now rewrite Nat.add_0_r.
  - rewrite IH. now rewrite Nat.add_succ_r.
Qed.

Lemma take_rows_with_index {A} (rows : list A) (idx : list nat) :
  (forall i, In i idx -> (i < length rows)%nat) ->
  Sklearn.take_rows (Notebook.with_index rows) idx
  = combine idx (Sklearn.take_rows rows idx).
Proof.
  unfold Sklearn.take_rows, Notebook.with_index.
  induction idx as [| i idx IH]; intros Hidx; [reflexivity |].
  cbn [omap list_omap]. rewrite (nth_error_indexed rows 0 i). cbn [Nat.add].
  destruct (nth_error rows i) eqn:E.
  - cbn [option_map combine]. f_equal. apply IH. intros j Hj. apply Hidx. now right.
  - apply nth_error_None in E. specialize (Hidx i (or_introl eq_refl)). lia.
Qed.

Lemma take_rows_combine {A B} (X : list A) (y : list B) (idx : list nat) :
  length X = length y ->
  Sklearn.take_rows (combine X y) idx
  = combine (Sklearn.take_rows X idx) (Sklearn.take_rows y idx).
Proof.
  intros Hlen. unfold Sklearn.take_rows.
  induction idx as [| i idx IH]; [reflexivity |].
  cbn [omap list_omap].
  destruct (nth_error X i) as [a |] eqn:Ea, (nth_error y i) as [b |] eqn:Eb.
  - assert (E : nth_error (combine X y) i = Some (a, b)).
    { clear IH. revert y i Hlen Ea Eb. induction X as [| x X IHX]; intros [| y0 y] [| i] Hlen Ea Eb;
        try discriminate; cbn in *.
      - congruence.
      - apply IHX; [lia | assumption | assumption]. }
    rewrite E. cbn [combine]. now rewrite IH.
  - apply nth_error_None in Eb. assert (Hi : (i < length X)%nat)
      by (apply nth_error_Some; congruence). lia.
  - apply nth_error_None in Ea. assert (Hi : (i < length y)%nat)
      by (apply nth_error_Some; congruence). lia.
  - assert (E : nth_error (combine X y) i = None).
    { apply nth_error_None. rewrite List.length_combine.
      apply nth_error_None in Ea. lia. }
    now rewrite E.
Qed.

Lemma merge_on_index_skip {A B} (left : list (nat * A)) (i : nat) (b : B)
    (right : list (nat * B)) :
  ~ In i (List.map fst left) ->
  Notebook.merge_on_index left ((i, b) :: right) = Notebook.merge_on_index left right.
Proof.
  unfold Notebook.merge_on_index. induction left as [| [j a] left IH]; intros Hn;
    [reflexivity |].
  cbn [flat_map List.filter fst snd List.map].
  destruct (Nat.eqb_spec i j) as [-> | Hne].
  - exfalso. apply Hn. now left.
  - f_equal. apply IH. intros Hin. apply Hn. now right.
Qed.

Lemma merge_on_index_cons {A B} (i : nat) (x : A) (left : list (nat * A))
    (right : list (nat * B)) :
  Notebook.merge_on_index ((i, x) :: left) right
  = (List.map (fun r => (i, (x, snd r)))
       (List.filter (fun r => Nat.eqb (fst r) i) right)
     ++ Notebook.merge_on_index left right)%list.
Proof. reflexivity. Qed.

(** Two tables that carry the same distinct index labels in the same order
    are merged row by row. *)
Lemma merge_on_index_aligned {A B} (idx : list nat) (xs : list A) (ys : list B) :
  List.NoDup idx -> length xs = length idx -> length ys = length idx ->
  Notebook.merge_on_index (combine idx xs) (combine idx ys)
  = combine idx (combine xs ys).
Proof.
  revert xs ys. induction idx as [| i idx IH]; intros [| x xs] [| y ys] Hnd Hx Hy;
    try discriminate; [reflexivity |].
  inversion Hnd as [| ? ? Hi Hnd']; subst.
  cbn [combine]. rewrite merge_on_index_cons.
  cbn [List.filter fst snd]. rewrite Nat.eqb_refl.
  assert (Hnone : List.filter (fun r : nat * B => Nat.eqb (fst r) i) (combine idx ys) = []).
  { clear -Hi. revert ys. induction idx as [| j idx IHi]; intros [| y ys]; try reflexivity.
    cbn [combine List.filter fst].
    destruct (Nat.eqb_spec j i) as [-> | Hne].
    - exfalso. apply Hi. now left.
    - apply IHi. intros Hin. apply Hi. now right. }
  rewrite Hnone. cbn [List.map app snd]. f_equal.
  rewrite merge_on_index_skip.
  - apply IH; [exact Hnd' | simpl in Hx; lia | simpl in Hy; lia].
  - intros Hin. apply Hi. apply in_map_iff in Hin as ([j a] & <- & Hin).
    now apply in_combine_l in Hin.
Qed.

(** X12: merging the training predictors back with the training response
    on the row labels pairs every training row with its own response:
    [xtrain2] is the rows of the joined table at the training positions, in
    the order of [xtrain], under their row numbers. *)
Theorem X12_xtrain2_rows (A B : Type) (R : Sklearn.RandomState) (ambient : Sklearn.rng R)
    (predictors : list A) (response : list B) :
  Sklearn.shuffles R -> length predictors = length response ->
  let train := fst (Sklearn.split_indices R ambient (Some 0) (1 # 5)
                      (length predictors)) in
  Notebook.xtrain2 R ambient predictors response
  = combine train (Sklearn.take_rows (combine predictors response) train)
  /\ length (Notebook.xtrain2 R ambient predictors response) = length train.
Proof.
  intros HR Hlen train.
  assert (Hpart := split_indices_partition R ambient (Some 0) (1 # 5)
                     (length predictors) HR).
  fold train in Hpart. destruct Hpart as (_ & Hcover & Hnd & _ & _).
  assert (Hin : forall i, In i train -> (i < length predictors)%nat)
    by (intros i Hi; apply Hcover; now left).
  assert (Hx : Sklearn.xtrain (Notebook.split_cell43 R ambient
                 (Notebook.with_index predictors) (Notebook.with_index response))
               = combine train (Sklearn.take_rows predictors train)).
  { unfold Notebook.split_cell43, Sklearn.train_test_split, Notebook.with_index at 1.
    rewrite List.length_combine, List.length_seq, Nat.min_id. fold train.
    destruct (Sklearn.split_indices R ambient (Some 0) (1 # 5) (length predictors))
      as [tr te] eqn:E. cbn [Sklearn.xtrain]. subst train. cbn [fst] in *.
    now apply take_rows_with_index. }
  assert (Hy : Sklearn.ytrain (Notebook.split_cell43 R ambient
                 (Notebook.with_index predictors) (Notebook.with_index response))
               = combine train (Sklearn.take_rows response train)).
  { unfold Notebook.split_cell43, Sklearn.train_test_split, Notebook.with_index at 1.
    rewrite List.length_combine, List.length_seq, Nat.min_id. fold train.
    destruct (Sklearn.split_indices R ambient (Some 0) (1 # 5) (length predictors))
      as [tr te] eqn:E. cbn [Sklearn.ytrain]. subst train. cbn [fst] in *.
    apply take_rows_with_index. intros i Hi. rewrite <- Hlen. now apply Hin. }
  assert (Lx : length (Sklearn.take_rows predictors train) = length train)
    by now apply take_rows_length.
  assert (Ly : length (Sklearn.take_rows response train) = length train)
    by (apply take_rows_length; intros i Hi; rewrite <- Hlen; now apply Hin).
  unfold Notebook.xtrain2. rewrite Hx, Hy.
  rewrite (merge_on_index_aligned train _ _ Hnd Lx Ly).
  rewrite (take_rows_combine predictors response train Hlen).
  split; [reflexivity |].
  rewrite !List.length_combine. lia.
Qed.

Lemma X12_xtrain2_rows_witness :
  Notebook.xtrain2 Sample.flip 0 [10; 11; 12; 13; 14]%nat ["a"; "b"; "c"; "d"; "e"]
  = [(3, (13, "d")); (2, (12, "c")); (1, (11, "b")); (0, (10, "a"))]%nat.
Proof.
  apply (X12_xtrain2_rows nat string Sample.flip 0 [10; 11; 12; 13; 14]%nat
           ["a"; "b"; "c"; "d"; "e"] flip_shuffles eq_refl).
Defined.
